(** * Decliner ranking vs. foreign-investor flow: extraction and reconciliation core

    A shallow embedding of [stock_foreign_dashboard.py] and the properties of
    its three components: the ranking extractor ([fetch_fubon_ranking]), the
    flow lookup builder ([fetch_twse_foreign_data]) and the reconciler (the
    two-horizon merge of [main] followed by [merge_and_classify]); of
    [generate_html] the flow cells of a table row and the date warning, and
    [main] up to the call of [generate_html].

    Modelling conventions.
    - Python [str] is [string]; a character is an [ascii].  The character
      classes ([str.isdigit], [str.strip], regex [\d], [\s], [[A-Z]]) are the
      ASCII ones; the non-ASCII literals of the date pattern are matched as
      their UTF-8 bytes.  Digits and blanks outside ASCII are ordinary
      characters here.
    - Python [int] is [Z]; [//] is [Z.div] (floor), never [Z.quot].
    - Python [float] is kept abstract (class [PyFloat]): the code only parses
      floats and stores them.
    - A [dict] is an insertion-ordered association list with unique keys
      ([pydict]); assigning to an existing key keeps the key's position.
    - A raised exception is a value of [result]; [try ... except ValueError]
      is a match on it.
    - The HTML parser, the HTTP session and the clock are collaborators: the
      extractor takes the page text and the flat list of cells, the lookup
      builder takes the feed as a function of the date string. *)

From Stdlib Require Import String Ascii List ZArith Lia Bool Arith.
From Stdlib Require Import Permutation Sorted.
Import ListNotations.
Local Open Scope string_scope.
Local Open Scope Z_scope.

(* ================================================================== *)
(** ** Exceptions *)

Inductive exn : Type :=
| ValueError
| IndexError
| OverflowError.

Inductive result (A : Type) : Type :=
| Ok (a : A)
| Raise (e : exn).

Arguments Ok {A} a.
Arguments Raise {A} e.

Definition bind {A B : Type} (m : result A) (k : A -> result B) : result B :=
  match m with
  | Ok a => k a
  | Raise e => Raise e
  end.

Notation "x <- m ;; k" := (bind m (fun x => k))
  (at level 61, m at next level, right associativity).
Notation "' p <- m ;; k" := (bind m (fun x => let p := x in k))
  (at level 61, p pattern, m at next level, right associativity).

Definition is_ok {A : Type} (m : result A) : bool :=
  match m with Ok _ => true | Raise _ => false end.

(* ================================================================== *)
(** ** Strings the way the script uses them *)

Module PyStr.

Definition ord (c : ascii) : nat := nat_of_ascii c.

Definition between (lo hi : nat) (c : ascii) : bool :=
  (Nat.leb lo (ord c) && Nat.leb (ord c) hi)%bool.

(** [str.isspace] on ASCII: TAB..CR, FS..US and the blank. This is the class
    of [str.strip()] and of the regex [\s]. *)
Definition is_space (c : ascii) : bool :=
  (between 9 13 c || between 28 31 c || Nat.eqb (ord c) 32)%bool.

(** The blanks [int()] skips around a literal: TAB..CR and the blank only. *)
Definition is_int_space (c : ascii) : bool :=
  (between 9 13 c || Nat.eqb (ord c) 32)%bool.

Definition is_digit (c : ascii) : bool := between 48 57 c.
Definition is_upper (c : ascii) : bool := between 65 90 c.

Fixpoint drop_while (p : ascii -> bool) (s : string) : string :=
  match s with
  | EmptyString => EmptyString
  | String c s' => if p c then drop_while p s' else s
  end.

Fixpoint drop_while_end (p : ascii -> bool) (s : string) : string :=
  match s with
  | EmptyString => EmptyString
  | String c s' =>
      match drop_while_end p s' with
      | EmptyString => if p c then EmptyString else String c EmptyString
      | r => String c r
      end
  end.

(** [s.strip()] *)
Definition strip (s : string) : string :=
  drop_while_end is_space (drop_while is_space s).

(** [s.replace(c, empty)] for a one-character [c]. *)
Fixpoint remove_char (c : ascii) (s : string) : string :=
  match s with
  | EmptyString => EmptyString
  | String d s' =>
      if Ascii.eqb c d then remove_char c s' else String d (remove_char c s')
  end.

Fixpoint all_chars (p : ascii -> bool) (s : string) : bool :=
  match s with
  | EmptyString => true
  | String c s' => (p c && all_chars p s')%bool
  end.

(** [s.isdigit()]: at least one character, all of them digits. *)
Definition isdigit (s : string) : bool :=
  match s with
  | EmptyString => false
  | _ => all_chars is_digit s
  end.

Definition is_empty (s : string) : bool :=
  match s with EmptyString => true | _ => false end.

Definition digit_val (c : ascii) : Z := Z.of_nat (ord c) - 48.

(** Slice [s[a:b]] for [0 <= a <= b]. *)
Definition slice (a b : nat) (s : string) : string :=
  substring a (b - a) s.

Fixpoint take_while (p : ascii -> bool) (s : string) : string :=
  match s with
  | EmptyString => EmptyString
  | String c s' => if p c then String c (take_while p s') else EmptyString
  end.

(** [Some rest] when [s = pre ++ rest]. *)
Fixpoint strip_prefix (pre s : string) : option string :=
  match pre with
  | EmptyString => Some s
  | String a pre' =>
      match s with
      | EmptyString => None
      | String b s' => if Ascii.eqb a b then strip_prefix pre' s' else None
      end
  end.

(** Leftmost match of an anchored matcher, as [re.search] tries the start
    positions from left to right (the end of the string included). *)
Fixpoint search {A : Type} (at_start : string -> option A) (s : string)
  : option A :=
  match at_start s with
  | Some a => Some a
  | None =>
      match s with
      | EmptyString => None
      | String _ s' => search at_start s'
      end
  end.

End PyStr.

(* ================================================================== *)
(** ** [int(str)] in base ten *)

Module PyInt.
Import PyStr.

(** [sys.get_int_max_str_digits()]: a literal with more digits is refused
    with a ValueError. *)
Definition int_max_str_digits : nat := 4300.

(** Digits with single underscores between them.  [prev] says whether the
    previous character was a digit; the accumulator carries the value and
    the number of digits read. *)
Fixpoint digits (prev : bool) (acc : Z) (n : nat) (s : string)
  : option (Z * nat) :=
  match s with
  | EmptyString => if prev then Some (acc, n) else None
  | String c s' =>
      if is_digit c then digits true (10 * acc + digit_val c) (S n) s'
      else if Ascii.eqb c "_" then
        if prev then digits false acc n s' else None
      else None
  end.

Definition unsigned (s : string) : option Z :=
  match digits false 0 0%nat s with
  | Some (v, n) => if Nat.leb n int_max_str_digits then Some v else None
  | None => None
  end.

(** [int(s)]; [None] is ValueError. *)
Definition int (s : string) : option Z :=
  let t := drop_while_end is_int_space (drop_while is_int_space s) in
  match t with
  | String "-" r => option_map Z.opp (unsigned r)
  | String "+" r => unsigned r
  | _ => unsigned t
  end.

End PyInt.

(* ================================================================== *)
(** ** Dictionaries *)

Section PyDict.
Context {V : Type}.

Definition pydict : Type := list (string * V).

(** [d.get(k)] *)
Fixpoint dict_get (d : pydict) (k : string) : option V :=
  match d with
  | [] => None
  | (k', v) :: d' => if String.eqb k k' then Some v else dict_get d' k
  end.

(** [d[k] = v] *)
Fixpoint dict_set (d : pydict) (k : string) (v : V) : pydict :=
  match d with
  | [] => [(k, v)]
  | (k', v') :: d' =>
      if String.eqb k k' then (k', v) :: d' else (k', v') :: dict_set d' k v
  end.

(** [k in d] *)
Definition dict_mem (d : pydict) (k : string) : bool :=
  match dict_get d k with Some _ => true | None => false end.

Definition dict_keys (d : pydict) : list string := map fst d.
End PyDict.

Arguments pydict V : clear implicits.

(* ================================================================== *)
(** ** Flow lookup builder: [fetch_twse_foreign_data] *)

(** [datetime] as the builder uses it. *)
Class PyDatetime : Type := {
  datetime : Type;
  (** [datetime.strptime(s, "%Y%m%d")] *)
  strptime_ymd : string -> result datetime;
  (** [dt - timedelta(days=i)] *)
  minus_days : datetime -> nat -> result datetime;
  (** [dt.strftime("%Y%m%d")] *)
  strftime_ymd : datetime -> string
}.

Module Flow.
Import PyStr.

(** One value of [foreign_map]. *)
Record flow_record : Type := {
  f_name : string;
  f_buy : Z;
  f_sell : Z;
  f_net : Z;
  f_buy_shares : Z;
  f_sell_shares : Z;
  f_net_shares : Z
}.

(** A feed row: a positional array; the items are read through [str()]. *)
Definition row : Type := list string.

(** The decoded JSON object: [data.get("stat")] and [data.get("data")]. *)
Record response : Type := {
  stat : option string;
  data : option (list row)
}.

(** [row[k]] *)
Definition row_get (r : row) (k : nat) : result string :=
  match nth_error r k with
  | Some x => Ok x
  | None => Raise IndexError
  end.

(** [data.get("stat") == "OK" and data.get("data")] *)
Definition usable (d : response) : bool :=
  match stat d with
  | Some s =>
      if String.eqb s "OK"
      then match data d with
           | Some (_ :: _) => true
           | _ => false
           end
      else false
  | None => false
  end.

Definition rows_of (d : response) : list row :=
  match data d with Some rs => rs | None => [] end.

(** *** First attempt (source lines 229-262) *)

Definition parse_shares (val : string) : Z :=
  let val := remove_char "," (strip val) in
  match PyInt.int val with
  | Some n => n
  | None => 0
  end.

Definition record_of_row (r : row) : result (string * flow_record) :=
  c0 <- row_get r 0 ;;
  c1 <- row_get r 1 ;;
  let code := strip c0 in
  let name := strip c1 in
  c2 <- row_get r 2 ;;
  let buy_shares := parse_shares c2 in
  c3 <- row_get r 3 ;;
  let sell_shares := parse_shares c3 in
  c4 <- row_get r 4 ;;
  let net_shares := parse_shares c4 in
  Ok (code,
      {| f_name := name;
         f_buy := buy_shares / 1000;
         f_sell := sell_shares / 1000;
         f_net := net_shares / 1000;
         f_buy_shares := buy_shares;
         f_sell_shares := sell_shares;
         f_net_shares := net_shares |}).

Fixpoint build_map (rows : list row) (foreign_map : pydict flow_record)
  : result (pydict flow_record) :=
  match rows with
  | [] => Ok foreign_map
  | r :: rows' =>
      '(code, rec) <- record_of_row r ;;
      build_map rows' (dict_set foreign_map code rec)
  end.

(** *** Backward walk (source lines 280-308) *)

Definition parse_shares2 (val : string) : Z :=
  let val := remove_char "," (strip val) in
  match PyInt.int val with
  | Some n => n
  | None => 0
  end.

Definition record_of_row2 (r : row) : result (string * flow_record) :=
  c0 <- row_get r 0 ;;
  c1 <- row_get r 1 ;;
  let code := strip c0 in
  let name := strip c1 in
  c2 <- row_get r 2 ;;
  let buy_shares := parse_shares2 c2 in
  c3 <- row_get r 3 ;;
  let sell_shares := parse_shares2 c3 in
  c4 <- row_get r 4 ;;
  let net_shares := parse_shares2 c4 in
  Ok (code,
      {| f_name := name;
         f_buy := buy_shares / 1000;
         f_sell := sell_shares / 1000;
         f_net := net_shares / 1000;
         f_buy_shares := buy_shares;
         f_sell_shares := sell_shares;
         f_net_shares := net_shares |}).

Fixpoint build_map2 (rows : list row) (foreign_map : pydict flow_record)
  : result (pydict flow_record) :=
  match rows with
  | [] => Ok foreign_map
  | r :: rows' =>
      '(code, rec) <- record_of_row2 r ;;
      build_map2 rows' (dict_set foreign_map code rec)
  end.

(** [f"{d[4:6]}/{d[6:8]}"] *)
Definition display (d : string) : string :=
  slice 4 6 d ++ "/" ++ slice 6 8 d.

(** The feed collaborator and what one call of the builder yields: the date
    strings requested, in order, and the returned pair or the exception. *)
Definition feed : Type := string -> response.
Definition lookup : Type := (pydict flow_record * string)%type.
Definition outcome : Type := (list string * result lookup)%type.

Section Builder.
Context `{PyDatetime}.
Variable fetch : feed.

(** The [for i in range(1, 8)] loop with its [else] branch. *)
Fixpoint walk (dt : datetime) (range : list nat) : outcome :=
  match range with
  | [] => ([], Ok ([], EmptyString))
  | i :: range' =>
      match minus_days dt i with
      | Raise e => ([], Raise e)
      | Ok prev_dt =>
          let prev_date := strftime_ymd prev_dt in
          let data2 := fetch prev_date in
          if usable data2
          then ([prev_date],
                foreign_map <- build_map2 (rows_of data2) [] ;;
                Ok (foreign_map, display prev_date))
          else let '(log, r) := walk dt range' in (prev_date :: log, r)
      end
  end.

Definition range_1_8 : list nat := seq 1 7.

Definition fetch_twse_foreign_data (target_date : string) : outcome :=
  let data := fetch target_date in
  if usable data
  then ([target_date],
        foreign_map <- build_map (rows_of data) [] ;;
        Ok (foreign_map, display target_date))
  else match strptime_ymd target_date with
       | Raise e => ([target_date], Raise e)
       | Ok dt =>
           let '(log, r) := walk dt range_1_8 in (target_date :: log, r)
       end.

(** The date string of the [i]-th step back. *)
Definition day_back (dt : datetime) (i : nat) : string :=
  match minus_days dt i with
  | Ok d => strftime_ymd d
  | Raise _ => EmptyString
  end.
End Builder.

End Flow.

(* ================================================================== *)
(** ** Ranking extractor: [fetch_fubon_ranking] *)

(** The type of Python floats. *)
Class PyFloatType : Type := {
  float : Type
}.

(** [float(str)] and the value [0.0]; [None] is ValueError. *)
Class PyFloat {FT : PyFloatType} : Type := {
  float_zero : float;
  float_of_str : string -> option float
}.

Module Extract.
Import PyStr.

(** One [<td>] of [soup.find_all("td")]: its [get_text(strip=True)] and the
    [href] of its first [<a>], when it has one carrying that attribute. *)
Record td : Type := {
  td_text : string;
  td_href : option string
}.

(** [re.search(r"日期[：:]\s*(\d{1,2}/\d{1,2})", page_text)], group 1. *)
Definition one_or_two_digits (s : string) : option (string * string) :=
  match s with
  | String a (String b r) =>
      if is_digit a
      then if is_digit b
           then Some (String a (String b EmptyString), r)
           else Some (String a EmptyString, String b r)
      else None
  | String a EmptyString =>
      if is_digit a then Some (String a EmptyString, EmptyString) else None
  | EmptyString => None
  end.

Definition date_token_at (s : string) : option string :=
  match one_or_two_digits s with
  | Some (m, String "/" r) =>
      match one_or_two_digits r with
      | Some (d, _) => Some (m ++ "/" ++ d)
      | None => None
      end
  | _ => None
  end.

Definition date_label : string := "日期".
Definition wide_colon : string := "：".

Definition labelled_date_at (s : string) : option string :=
  match strip_prefix date_label s with
  | Some r =>
      let after_colon :=
        match strip_prefix wide_colon r with
        | Some r' => Some r'
        | None => strip_prefix ":" r
        end in
      match after_colon with
      | Some r' => date_token_at (drop_while is_space r')
      | None => None
      end
  | None => None
  end.

Definition page_date_of (page_text : string) : string :=
  match search labelled_date_at page_text with
  | Some d => d
  | None => EmptyString
  end.

(** [re.search(r"Link2Stk\('([^']+)'\)", href)], group 1. *)
Definition not_quote (c : ascii) : bool := negb (Ascii.eqb c "'").

Definition link_code_at (s : string) : option string :=
  match strip_prefix "Link2Stk('" s with
  | Some r =>
      let g := take_while not_quote r in
      if is_empty g then None
      else match strip_prefix "')" (drop_while not_quote r) with
           | Some _ => Some g
           | None => None
           end
  | None => None
  end.

(** [\d{4,6}] at the start of [s]: the digits taken and the rest. *)
Fixpoint take_digits (max : nat) (s : string) : string * string :=
  match max, s with
  | S max', String c s' =>
      if is_digit c
      then let '(d, r) := take_digits max' s' in (String c d, r)
      else (EmptyString, s)
  | _, _ => (EmptyString, s)
  end.

(** The prefix [\d{4,6}[A-Z]?] of [s] and what follows it. *)
Definition code_prefix (s : string) : option (string * string) :=
  let '(d, r) := take_digits 6 s in
  if Nat.leb 4 (String.length d)
  then match r with
       | String c r' =>
           if is_upper c then Some (d ++ String c EmptyString, r')
           else Some (d, r)
       | EmptyString => Some (d, r)
       end
  else None.

(** [re.match(r"(\d{4,6}[A-Z]?)", s)], group 1. *)
Definition match_code (s : string) : option string :=
  option_map fst (code_prefix s).

(** [re.sub] of the pattern [^\d{4,6}[A-Z]?\s*] by the empty string. *)
Definition sub_code_prefix (s : string) : string :=
  match code_prefix s with
  | Some (_, r) => drop_while is_space r
  | None => s
  end.

(** The stock code of a name cell: the link first, the text prefix second;
    the empty string when neither gives one. *)
Definition resolve_code (name_td : td) : string :=
  let stock_code :=
    match td_href name_td with
    | Some href =>
        match search link_code_at href with
        | Some c => c
        | None => EmptyString
        end
    | None => EmptyString
    end in
  if is_empty stock_code
  then match match_code (td_text name_td) with
       | Some c => c
       | None => EmptyString
       end
  else stock_code.

Definition int_or_raise (s : string) : result Z :=
  match PyInt.int s with
  | Some n => Ok n
  | None => Raise ValueError
  end.

(** [t.isdigit() and 1 <= int(t) <= 999] *)
Definition is_rank (t : string) : result bool :=
  if isdigit t
  then n <- int_or_raise t ;; Ok ((1 <=? n) && (n <=? 999))%bool
  else Ok false.

(** The inner [while j < len(all_tds) and len(remaining) < 8] loop;
    [cells] is [all_tds[j:]]. Returns [remaining] and the final [j]. *)
Fixpoint collect (cells : list td) (j : nat) (remaining : list string)
  : result (list string * nat) :=
  match cells with
  | [] => Ok (remaining, j)
  | c :: cells' =>
      if Nat.ltb (length remaining) 8
      then
        let val := td_text c in
        m <- is_rank val ;;
        if (m && Nat.leb 6 (length remaining))%bool then Ok (remaining, j)
        else if is_empty val then collect cells' (S j) remaining
        else collect cells' (S j) (remaining ++ [val])
      else Ok (remaining, j)
  end.

Section Scan.
Context {FT : PyFloatType} {HF : PyFloat}.

(** One entry of [stocks]. *)
Record stock : Type := {
  rank : Z;
  code : string;
  name : string;
  close : float;
  change : float;
  change_pct : float;
  volume : float;
  five_day_change : float;
  five_day_pct : float
}.

Definition clean_num (text : string) : float :=
  let text := remove_char " " (remove_char "," (strip text)) in
  if (is_empty text || String.eqb text "-")%bool then float_zero
  else
    let text := remove_char "+" text in
    match float_of_str text with
    | Some x => x
    | None => float_zero
    end.

Definition item (remaining : list string) (k : nat) : string :=
  nth k remaining EmptyString.

Definition make_stock (rank : Z) (stock_code stock_name : string)
    (remaining : list string) : stock :=
  {| rank := rank;
     code := stock_code;
     name := stock_name;
     close := clean_num (item remaining 0);
     change := clean_num (item remaining 1);
     change_pct := clean_num (remove_char "%" (item remaining 2));
     volume := clean_num (item remaining 3);
     five_day_change := clean_num (item remaining 4);
     five_day_pct := clean_num (remove_char "%" (item remaining 5)) |}.

(** What one pass of the outer [while] body does at cursor [i]. *)
Inductive step_result : Type :=
| Stop
| Next (i' : nat) (emitted : option stock).

Definition step (all_tds : list td) (i : nat) : result step_result :=
  match nth_error all_tds i with
  | None => Ok Stop
  | Some cell =>
      let cell_text := td_text cell in
      m <- is_rank cell_text ;;
      if m then
        rank <- int_or_raise cell_text ;;
        match nth_error all_tds (i + 1) with
        | None => Ok Stop
        | Some name_td =>
            let stock_name_raw := td_text name_td in
            let stock_code := resolve_code name_td in
            if is_empty stock_code then Ok (Next (i + 1) None)
            else
              let stock_name := strip (sub_code_prefix stock_name_raw) in
              '(remaining, j) <- collect (skipn (i + 2) all_tds) (i + 2) [] ;;
              if Nat.leb 6 (length remaining)
              then Ok (Next j
                         (Some (make_stock rank stock_code stock_name
                                           remaining)))
              else Ok (Next (i + 1) None)
        end
      else Ok (Next (i + 1) None)
  end.

(** The outer loop from cursor [i]: the records appended to [stocks], each
    with the cursor position of its rank cell. *)
Fixpoint scan (fuel : nat) (all_tds : list td) (i : nat)
  : result (list (nat * stock)) :=
  match fuel with
  | O => Ok []
  | S fuel' =>
      r <- step all_tds i ;;
      match r with
      | Stop => Ok []
      | Next i' emitted =>
          rest <- scan fuel' all_tds i' ;;
          Ok (match emitted with
              | Some s => (i, s) :: rest
              | None => rest
              end)
      end
  end.

(** Every pass moves the cursor forward, so [len(all_tds) - i] passes
    reach the end. *)
Definition scan_from (all_tds : list td) (i : nat)
  : result (list (nat * stock)) :=
  scan (S (length all_tds - i)) all_tds i.

Definition fetch_fubon_ranking (page_text : string) (all_tds : list td)
  : result (list stock * string) :=
  let page_date := page_date_of page_text in
  trace <- scan_from all_tds 0 ;;
  Ok (map snd trace, page_date).
End Scan.

End Extract.

(* ================================================================== *)
(** ** Reconciler: the two-horizon merge of [main] and [merge_and_classify] *)

Module Reconcile.
Import Extract Flow.

(** [list.sort(key=key, reverse=reverse)]: a stable sort; with
    [reverse=True] the list is reversed, sorted and reversed again, which
    keeps equal keys in their original order. *)
Section Sort.
Context {A : Type}.
Variable key : A -> Z.

Fixpoint insert_by (x : A) (l : list A) : list A :=
  match l with
  | [] => [x]
  | y :: l' => if key x <=? key y then x :: l else y :: insert_by x l'
  end.

Definition stable_sort (l : list A) : list A :=
  fold_right insert_by [] l.

Definition list_sort (reverse : bool) (l : list A) : list A :=
  if reverse then rev (stable_sort (rev l)) else stable_sort l.
End Sort.

Section Merge.
Context {FT : PyFloatType}.

(** A value of [ten_day_map]. *)
Record ten_day_entry : Type := {
  ten_day_change : float;
  ten_day_pct : float;
  ten_day_rank : Z;
  full : stock
}.

(** An entry of the merged list [stocks]: the keys of a ranking record,
    the 5-day pair possibly [None], and the 10-day pair. *)
Record merged : Type := {
  m_rank : Z;
  m_code : string;
  m_name : string;
  m_close : float;
  m_change : float;
  m_change_pct : float;
  m_volume : float;
  m_five_day_change : option float;
  m_five_day_pct : option float;
  m_ten_day_change : option float;
  m_ten_day_pct : option float
}.

Definition five_day_map_of (stocks_5d : list stock) : pydict stock :=
  fold_left (fun m s => dict_set m (code s) s) stocks_5d [].

Definition ten_day_map_of (stocks_10d : list stock)
  : pydict ten_day_entry :=
  fold_left
    (fun m s =>
       dict_set m (code s)
         {| ten_day_change := five_day_change s;
            ten_day_pct := five_day_pct s;
            ten_day_rank := rank s;
            full := s |})
    stocks_10d [].

(** Loop (A): [s] with the two 10-day keys set from
    [ten_day_map.get(s["code"], {})]. *)
Definition attach (ten_day_map : pydict ten_day_entry) (s : stock)
  : merged :=
  let td := dict_get ten_day_map (code s) in
  {| m_rank := rank s;
     m_code := code s;
     m_name := name s;
     m_close := close s;
     m_change := change s;
     m_change_pct := change_pct s;
     m_volume := volume s;
     m_five_day_change := Some (five_day_change s);
     m_five_day_pct := Some (five_day_pct s);
     m_ten_day_change := option_map ten_day_change td;
     m_ten_day_pct := option_map ten_day_pct td |}.

(** The record appended by loop (B). *)
Definition only_10d (td : ten_day_entry) : merged :=
  let orig := full td in
  {| m_rank := rank orig;
     m_code := code orig;
     m_name := name orig;
     m_close := close orig;
     m_change := change orig;
     m_change_pct := change_pct orig;
     m_volume := volume orig;
     m_five_day_change := None;
     m_five_day_pct := None;
     m_ten_day_change := Some (ten_day_change td);
     m_ten_day_pct := Some (ten_day_pct td) |}.

(** Loop (B) over [ten_day_map.items()]. *)
Fixpoint add_only_10d (items : list (string * ten_day_entry))
    (five_day_map : pydict stock) (stocks : list merged) : list merged :=
  match items with
  | [] => stocks
  | (c, td) :: items' =>
      if dict_mem five_day_map c
      then add_only_10d items' five_day_map stocks
      else add_only_10d items' five_day_map (stocks ++ [only_10d td])
  end.

Definition merge_horizons (stocks_5d stocks_10d : list stock)
  : list merged :=
  let five_day_map := five_day_map_of stocks_5d in
  let ten_day_map := ten_day_map_of stocks_10d in
  let stocks := map (attach ten_day_map) stocks_5d in
  add_only_10d ten_day_map five_day_map stocks.

(** An entry of the three result lists: [{**s, **fdata}], or [s] with the
    six flow keys [None]. *)
Record classified : Type := {
  stock_of : merged;
  buy : option Z;
  sell : option Z;
  net : option Z;
  buy_shares : option Z;
  sell_shares : option Z;
  net_shares : option Z
}.

(** [fdata] carries a [name] key too, which replaces the one of [s]. *)
Definition with_name (s : merged) (n : string) : merged :=
  {| m_rank := m_rank s;
     m_code := m_code s;
     m_name := n;
     m_close := m_close s;
     m_change := m_change s;
     m_change_pct := m_change_pct s;
     m_volume := m_volume s;
     m_five_day_change := m_five_day_change s;
     m_five_day_pct := m_five_day_pct s;
     m_ten_day_change := m_ten_day_change s;
     m_ten_day_pct := m_ten_day_pct s |}.

Definition with_flow (s : merged) (fdata : flow_record) : classified :=
  {| stock_of := with_name s (f_name fdata);
     buy := Some (f_buy fdata);
     sell := Some (f_sell fdata);
     net := Some (f_net fdata);
     buy_shares := Some (f_buy_shares fdata);
     sell_shares := Some (f_sell_shares fdata);
     net_shares := Some (f_net_shares fdata) |}.

Definition without_flow (s : merged) : classified :=
  {| stock_of := s;
     buy := None;
     sell := None;
     net := None;
     buy_shares := None;
     sell_shares := None;
     net_shares := None |}.

(** The record built for [s], whichever list it goes to. *)
Definition merged_of (foreign_map : pydict flow_record) (s : merged)
  : classified :=
  match dict_get foreign_map (m_code s) with
  | Some fdata => with_flow s fdata
  | None => without_flow s
  end.

Definition groups : Type :=
  (list classified * list classified * list classified)%type.

(** The [for s in stocks] loop with its three lists. *)
Fixpoint classify (stocks : list merged) (foreign_map : pydict flow_record)
    (buying_list selling_list no_data_list : list classified) : groups :=
  match stocks with
  | [] => (buying_list, selling_list, no_data_list)
  | s :: stocks' =>
      match dict_get foreign_map (m_code s) with
      | Some fdata =>
          let merged := with_flow s fdata in
          if 0 <? f_net fdata
          then classify stocks' foreign_map
                 (buying_list ++ [merged]) selling_list no_data_list
          else classify stocks' foreign_map
                 buying_list (selling_list ++ [merged]) no_data_list
      | None =>
          let merged := without_flow s in
          classify stocks' foreign_map
            buying_list selling_list (no_data_list ++ [merged])
      end
  end.

(** [lambda x: x["net"]]; the lists that are sorted hold records built
    by [with_flow] only, whose [net] is an [int]. *)
Definition net_key (x : classified) : Z :=
  match net x with
  | Some n => n
  | None => 0
  end.

Definition merge_and_classify (stocks : list merged)
    (foreign_map : pydict flow_record) : groups :=
  let '(buying_list, selling_list, no_data_list) :=
    classify stocks foreign_map [] [] [] in
  (list_sort net_key true buying_list,
   list_sort net_key false selling_list,
   no_data_list).

Definition buying (g : groups) : list classified := fst (fst g).
Definition selling (g : groups) : list classified := snd (fst g).
Definition no_flow_data (g : groups) : list classified := snd g.


Definition c_code (x : classified) : string := m_code (stock_of x).
Definition c_rank (x : classified) : Z := m_rank (stock_of x).
End Merge.

End Reconcile.

(* ================================================================== *)
(** ** The dashboard: what [generate_html] decides, and [main] *)

Module Dashboard.
Import PyStr Extract Flow Reconcile.

(** Truth value of a [str]. *)
Definition truthy (s : string) : bool := negb (is_empty s).

Definition dquote : string := String (ascii_of_nat 34) EmptyString.

(** *** Number cells (source lines 358-372) *)

Definition digit_of (d : Z) : ascii := ascii_of_nat (48 + Z.to_nat d).

(** [str(n)] for [0 <= n], most significant digit first. *)
Fixpoint decimal_digits (fuel : nat) (n : Z) (acc : string) : string :=
  match fuel with
  | O => acc
  | S fuel' =>
      let acc' := String (digit_of (n mod 10)) acc in
      if n <? 10 then acc' else decimal_digits fuel' (n / 10) acc'
  end.

Definition str_of_nat (n : Z) : string :=
  decimal_digits (S (Z.to_nat (Z.log2 n))) n EmptyString.

(** A comma before every group of three digits counted from the right. *)
Fixpoint group3 (s : string) : string :=
  match s with
  | EmptyString => EmptyString
  | String c s' =>
      let n := String.length s' in
      String c (if (Nat.ltb 0 n && Nat.eqb (n mod 3) 0)%bool
                then "," ++ group3 s'
                else group3 s')
  end.

(** [f"{val:,}"] for an [int]. *)
Definition format_comma (val : Z) : string :=
  if val <? 0 then "-" ++ group3 (str_of_nat (- val))
  else group3 (str_of_nat val).

Definition span (cls body : string) : string :=
  "<span class=" ++ dquote ++ cls ++ dquote ++ ">" ++ body ++ "</span>".

Definition na_span : string := span "na" "N/A".

(** [fmt_num(val)] for the values that are an [int] or [None] (the flow
    columns), [is_pct] left at [False]. *)
Definition fmt_num (val : option Z) : string :=
  match val with
  | None => na_span
  | Some val =>
      let cls :=
        if 0 <? val then "pos" else if val <? 0 then "neg" else EmptyString in
      let sign := if 0 <? val then "+" else EmptyString in
      span cls (sign ++ format_comma val)
  end.

(** *** The flow cells of a table row (source lines 374-388) *)

Section Rows.
Context {FT : PyFloatType}.

(** The locals [net_cls], [net_display], [buy_display] and [sell_display]
    of one pass of the loop of [make_table_rows]. *)
Record flow_cells : Type := {
  net_cls : string;
  net_display : string;
  buy_display : string;
  sell_display : string
}.

Definition flow_cells_of (item : classified) : flow_cells :=
  let net_val := net item in
  {| net_cls :=
       match net_val with
       | Some v => if 0 <? v then "buy-highlight" else "sell-highlight"
       | None => EmptyString
       end;
     net_display :=
       match net_val with
       | Some v => fmt_num (Some v)
       | None => na_span
       end;
     buy_display :=
       match buy item with
       | Some v => fmt_num (Some v)
       | None => na_span
       end;
     sell_display :=
       match sell item with
       | Some v => fmt_num (Some v)
       | None => na_span
       end |}.

End Rows.

(** *** The data-source strip (source lines 736-748) *)

(** [{d if d else "N/A"}] *)
Definition shown_date (d : string) : string :=
  if truthy d then d else "N/A".

Definition date_warning_div : string :=
  "<div class=" ++ dquote ++ "date-warning" ++ dquote
  ++ ">⚠ 注意：跌幅資料與外資資料日期不同步，比對結果可能有誤差！</div>".

(** The conditional expression that closes the strip; [date_10d] does not
    occur in it. *)
Definition date_warning (date_5d date_foreign : string) : string :=
  if ((String.eqb date_5d date_foreign && truthy date_5d)
      || (negb (truthy date_5d) && negb (truthy date_foreign)))%bool
  then EmptyString
  else date_warning_div.

(** *** [main] (source lines 831-905) *)

(** The requests [main] makes of its collaborators, in order. *)
Inductive request : Type :=
| Ranking5
| Ranking10
| FlowDay (date : string).

(** What the HTML parser gives for one page. *)
Record page : Type := {
  page_text : string;
  page_cells : list td
}.

Section Main.
Context {FT : PyFloatType} {HF : PyFloat} `{PyDatetime}.

(** The arguments of the call of [generate_html]. *)
Record html_args : Type := {
  a_groups : groups;
  a_date_5d : string;
  a_date_10d : string;
  a_date_foreign : string
}.

(** [main] up to the call of [generate_html]: [None] is the early
    [return]; [today] is [datetime.now().strftime("%Y%m%d")], the default of
    [target_date]. *)
Definition main (page_5d page_10d : page) (fetch : feed) (today : string)
  : list request * result (option html_args) :=
  match fetch_fubon_ranking (page_text page_5d) (page_cells page_5d) with
  | Raise e => ([Ranking5], Raise e)
  | Ok (stocks_5d, date_5d) =>
      match stocks_5d with
      | [] => ([Ranking5], Ok None)
      | _ :: _ =>
          match fetch_fubon_ranking (page_text page_10d)
                  (page_cells page_10d) with
          | Raise e => ([Ranking5; Ranking10], Raise e)
          | Ok (stocks_10d, date_10d) =>
              let stocks := merge_horizons stocks_5d stocks_10d in
              let '(log, r) := fetch_twse_foreign_data fetch today in
              (Ranking5 :: Ranking10 :: map FlowDay log,
               '(foreign_map, date_foreign) <- r ;;
               let g := merge_and_classify stocks foreign_map in
               Ok (Some {| a_groups := g;
                           a_date_5d := date_5d;
                           a_date_10d := date_10d;
                           a_date_foreign := date_foreign |}))
          end
      end
  end.
End Main.

End Dashboard.

(* ================================================================== *)
(** ** Concrete collaborators used in the examples *)

(** The proleptic Gregorian calendar of [datetime]: a day is its ordinal
    (0001-01-01 is day 1, 9999-12-31 the last one); stepping back before
    day 1 is OverflowError.  [parse_ymd] reads the eight-digit form
    YYYYMMDD, which is what [strftime] produces. *)
Module Calendar.
Import PyStr.

Definition days_from_civil (y m d : Z) : Z :=
  let y' := if m <=? 2 then y - 1 else y in
  let era := y' / 400 in
  let yoe := y' - era * 400 in
  let mp := if 2 <? m then m - 3 else m + 9 in
  let doy := (153 * mp + 2) / 5 + d - 1 in
  let doe := yoe * 365 + yoe / 4 - yoe / 100 + doy in
  era * 146097 + doe - 719468.

Definition civil_from_days (z : Z) : Z * Z * Z :=
  let z := z + 719468 in
  let era := z / 146097 in
  let doe := z - era * 146097 in
  let yoe := (doe - doe / 1460 + doe / 36524 - doe / 146096) / 365 in
  let doy := doe - (365 * yoe + yoe / 4 - yoe / 100) in
  let mp := (5 * doy + 2) / 153 in
  let d := doy - (153 * mp + 2) / 5 + 1 in
  let m := if mp <? 10 then mp + 3 else mp - 9 in
  let y := yoe + era * 400 in
  ((if m <=? 2 then y + 1 else y), m, d).

(** [date.toordinal()] and back. *)
Definition to_ordinal (y m d : Z) : Z := days_from_civil y m d + 719163.
Definition of_ordinal (o : Z) : Z * Z * Z := civil_from_days (o - 719163).

Definition max_ordinal : Z := 3652059.

Definition is_leap (y : Z) : bool :=
  ((y mod 4 =? 0) && (negb (y mod 100 =? 0) || (y mod 400 =? 0)))%bool.

Definition days_in_month (y m : Z) : Z :=
  if m =? 2 then (if is_leap y then 29 else 28)
  else if (m =? 4) || (m =? 6) || (m =? 9) || (m =? 11) then 30
  else 31.

Fixpoint number (acc : Z) (s : string) : Z :=
  match s with
  | EmptyString => acc
  | String c s' => number (10 * acc + digit_val c) s'
  end.

Definition parse_ymd (s : string) : result Z :=
  if (Nat.eqb (String.length s) 8 && all_chars is_digit s)%bool
  then
    let y := number 0 (slice 0 4 s) in
    let m := number 0 (slice 4 6 s) in
    let d := number 0 (slice 6 8 s) in
    if ((1 <=? y) && (1 <=? m) && (m <=? 12)
        && (1 <=? d) && (d <=? days_in_month y m))%bool
    then Ok (to_ordinal y m d)
    else Raise ValueError
  else Raise ValueError.

Definition digit_char (n : Z) : ascii := ascii_of_nat (Z.to_nat (48 + n mod 10)).

Definition two_digits (n : Z) : string :=
  String (digit_char (n / 10)) (String (digit_char n) EmptyString).

Definition four_digits (n : Z) : string :=
  two_digits (n / 100) ++ two_digits n.

Definition format_ymd (o : Z) : string :=
  let '(y, m, d) := of_ordinal o in
  four_digits y ++ two_digits m ++ two_digits d.

Definition back (o : Z) (i : nat) : result Z :=
  let o' := o - Z.of_nat i in
  if 1 <=? o' then Ok o' else Raise OverflowError.

#[export] Instance gregorian : PyDatetime := {|
  datetime := Z;
  strptime_ymd := parse_ymd;
  minus_days := back;
  strftime_ymd := format_ymd
|}.

End Calendar.

(** Plain decimal literals read exactly: an optional minus sign, digits,
    an optional point and more digits.  The value is the pair of the
    digits as an integer and the number of digits after the point. *)
Module Decimal.
Import PyStr.

Definition decimal : Type := (Z * nat)%type.

Fixpoint digits_value (acc : Z) (s : string) : Z :=
  match s with
  | EmptyString => acc
  | String c s' => digits_value (10 * acc + digit_val c) s'
  end.

Definition unsigned (s : string) : option decimal :=
  let ip := take_while is_digit s in
  match drop_while is_digit s with
  | EmptyString =>
      if is_empty ip then None else Some (digits_value 0 ip, 0%nat)
  | String "." fp =>
      if (all_chars is_digit fp && negb (is_empty (ip ++ fp)))%bool
      then Some (digits_value 0 (ip ++ fp), String.length fp)
      else None
  | _ => None
  end.

Definition of_str (s : string) : option decimal :=
  match s with
  | String "-" r =>
      option_map (fun '(m, e) => (- m, e)) (unsigned r)
  | _ => unsigned s
  end.

#[export] Instance decimal_type : PyFloatType := {|
  float := decimal
|}.

#[export] Instance decimal_float : PyFloat := {|
  float_zero := ((0, 0%nat) : decimal);
  float_of_str := of_str
|}.

End Decimal.

(** Sample feed data. *)
Module FlowSamples.
Import Flow.

Definition tsmc_row : row := ["2330 "; " TSMC"; "3,000"; "4,500"; "-1,500"].

Definition tsmc_record : flow_record :=
  {| f_name := "TSMC";
     f_buy := 3;
     f_sell := 4;
     f_net := -2;
     f_buy_shares := 3000;
     f_sell_shares := 4500;
     f_net_shares := -1500 |}.

Definition closed_day : response := {| stat := Some "NO"; data := None |}.

Definition trading_day : response :=
  {| stat := Some "OK"; data := Some [tsmc_row] |}.

(** Data on 2024-03-01 only. *)
Definition march_feed : feed :=
  fun d => if String.eqb d "20240301" then trading_day else closed_day.

(** No data on any day. *)
Definition silent_feed : feed := fun _ => closed_day.

(** The same data on every day. *)
Definition steady_feed : feed := fun _ => trading_day.

(** 2024-03-03 as [datetime] ordinal. *)
Definition march_3 : Z := 738948.

End FlowSamples.

(** Sample rankings and flows. *)
Module ReconcileSamples.
Import Extract Flow Reconcile Decimal.

Definition quote (r : Z) (c n : string) (five_day : Z) : stock :=
  {| rank := r;
     code := c;
     name := n;
     close := (1005, 1%nat);
     change := (-15, 1%nat);
     change_pct := (-147, 2%nat);
     volume := (3200, 0%nat);
     five_day_change := (five_day, 1%nat);
     five_day_pct := (five_day, 2%nat) |}.

Definition flow_of (n : string) (buy_sh sell_sh : Z) : flow_record :=
  {| f_name := n;
     f_buy := buy_sh / 1000;
     f_sell := sell_sh / 1000;
     f_net := (buy_sh - sell_sh) / 1000;
     f_buy_shares := buy_sh;
     f_sell_shares := sell_sh;
     f_net_shares := buy_sh - sell_sh |}.

(** The two-horizon scenario: 2330 in both rankings, 9999 in the 10-day one
    only. *)
Definition primary_2330 : list stock := [quote 1 "2330" "TSMC" (-80)].
Definition secondary_2330_9999 : list stock :=
  [quote 3 "2330" "TSMC" (-120); quote 1 "9999" "NINE" (-300)].

(** The classification scenario: flow for 2330 only. *)
Definition flow_2330 : pydict flow_record :=
  [("2330", flow_of "TSMC" 200000 80000)].
Definition merged_2330 : merged := attach [] (quote 1 "2330" "TSMC" (-80)).
Definition merged_4444 : merged := attach [] (quote 2 "4444" "FOUR" (-70)).
Definition merged_2330_4444 : list merged := [merged_2330; merged_4444].



End ReconcileSamples.

(** Sample cells of a ranking page. *)
Module ExtractSamples.
Import Extract Decimal.

Definition plain (t : string) : td := {| td_text := t; td_href := None |}.

Definition linked (t c : string) : td :=
  {| td_text := t;
     td_href := Some ("javascript:Link2Stk('" ++ c ++ "');") |}.

(** A regular row: rank, name, six values. *)
Definition tsmc_cells : list td :=
  [plain "1"; linked "2330 TSMC" "2330"; plain "1,005.00"; plain "-15.00";
   plain "-1.47%"; plain "32,100"; plain "-80.00"; plain "-7.37%"].


Definition tsmc_stock : stock :=
  {| rank := 1;
     code := "2330";
     name := "TSMC";
     close := (100500, 2%nat);
     change := (-1500, 2%nat);
     change_pct := (-147, 2%nat);
     volume := (32100, 0%nat);
     five_day_change := (-8000, 2%nat);
     five_day_pct := (-737, 2%nat) |}.

(** The same identifier once more, ranked 2, with the extra blank cell the
    page has on its first ranks and no link. *)
Definition tsmc_again_cells : list td :=
  [plain "2"; plain "2330 TSMC"; plain "1,005.00"; plain "-15.00"; plain "";
   plain "-1.47%"; plain "32,100"; plain "-80.00"; plain "-7.37%"].

Definition tsmc_again_stock : stock :=
  {| rank := 2;
     code := "2330";
     name := "TSMC";
     close := (100500, 2%nat);
     change := (-1500, 2%nat);
     change_pct := (-147, 2%nat);
     volume := (32100, 0%nat);
     five_day_change := (-8000, 2%nat);
     five_day_pct := (-737, 2%nat) |}.

(** A header cell, then the two rows. *)
Definition page_cells : list td :=
  (plain "Rank" :: tsmc_cells ++ tsmc_again_cells)%list.

Definition page_text : string := "Rank 1 2330 TSMC " ++ date_label ++ ": 02/05".

End ExtractSamples.

(* ================================================================== *)
(** * Properties *)

(** ** Flow lookup builder *)

Module FlowFacts.
Import PyStr Flow.

Lemma bind_ok {A B : Type} (m : result A) (k : A -> result B) (b : B) :
  bind m k = Ok b -> exists a, m = Ok a /\ k a = Ok b.
Proof.
  destruct m as [a|e]; simpl; intros Hk; [exists a; auto | discriminate].
Qed.

(** Floor division by the lot size, without naming the operator. *)
Lemma floor_lots (n q : Z) :
  q = n / 1000 <-> 1000 * q <= n < 1000 * q + 1000.
Proof.
  split.
  - intros ->. pose proof (Z.mod_pos_bound n 1000 ltac:(lia)).
    pose proof (Z.div_mod n 1000 ltac:(lia)). lia.
  - intros Hq. apply (Z.div_unique n 1000 q (n - 1000 * q)); lia.
Qed.

Lemma floor_vs_truncation (n : Z) :
  (0 <= n \/ n mod 1000 = 0 -> n / 1000 = Z.quot n 1000) /\
  (n < 0 /\ n mod 1000 <> 0 -> n / 1000 = Z.quot n 1000 - 1).
Proof.
  pose proof (Z.mod_pos_bound n 1000 ltac:(lia)) as Hm.
  pose proof (Z.div_mod n 1000 ltac:(lia)) as Hd.
  pose proof (Z.quot_rem' n 1000) as Hq.
  assert (Hrem : -1000 < Z.rem n 1000 < 1000 /\
                 (0 <= n -> 0 <= Z.rem n 1000) /\
                 (n <= 0 -> Z.rem n 1000 <= 0)).
  { destruct (Z_lt_le_dec n 0) as [Hn|Hn].
    - pose proof (Z.rem_bound_pos_neg n 1000 ltac:(lia) ltac:(lia)). lia.
    - pose proof (Z.rem_bound_pos n 1000 Hn ltac:(lia)). lia. }
  split.
  - intros [Hn | Hz]; lia.
  - intros [Hn Hnz]. lia.
Qed.

Lemma record_of_row_fields (r : row) (c : string) (rec : flow_record) :
  record_of_row r = Ok (c, rec) ->
  exists c0 c1 c2 c3 c4,
    nth_error r 0 = Some c0 /\ nth_error r 1 = Some c1 /\
    nth_error r 2 = Some c2 /\ nth_error r 3 = Some c3 /\
    nth_error r 4 = Some c4 /\
    c = strip c0 /\
    rec = {| f_name := strip c1;
             f_buy := parse_shares c2 / 1000;
             f_sell := parse_shares c3 / 1000;
             f_net := parse_shares c4 / 1000;
             f_buy_shares := parse_shares c2;
             f_sell_shares := parse_shares c3;
             f_net_shares := parse_shares c4 |}.
Proof.
  unfold record_of_row, row_get. intros Hr.
  destruct (nth_error r 0) as [c0|]; [|discriminate].
  destruct (nth_error r 1) as [c1|]; [|discriminate].
  destruct (nth_error r 2) as [c2|]; [|discriminate].
  destruct (nth_error r 3) as [c3|]; [|discriminate].
  destruct (nth_error r 4) as [c4|]; [|discriminate].
  simpl in Hr. injection Hr as <- <-.
  exists c0, c1, c2, c3, c4. repeat split; reflexivity.
Qed.

Lemma parse_shares2_same (v : string) : parse_shares2 v = parse_shares v.
Proof. reflexivity. Qed.

Lemma record_of_row2_same (r : row) : record_of_row2 r = record_of_row r.
Proof.
  unfold record_of_row2, record_of_row.
  destruct (row_get r 0); simpl; [|reflexivity].
  destruct (row_get r 1); simpl; [|reflexivity].
  destruct (row_get r 2); simpl; [|reflexivity].
  destruct (row_get r 3); simpl; [|reflexivity].
  destruct (row_get r 4); simpl; [|reflexivity].
  rewrite !parse_shares2_same. reflexivity.
Qed.

Lemma build_map2_same (rows : list row) :
  forall m, build_map2 rows m = build_map rows m.
Proof.
  induction rows as [|r rows IH]; intros m; simpl; [reflexivity|].
  rewrite record_of_row2_same.
  destruct (record_of_row r) as [[c rec]|e]; simpl; [apply IH | reflexivity].
Qed.

(** Rows with the five leading slots never raise. *)
Definition wide (rows : list row) : Prop :=
  Forall (fun r => (5 <= length r)%nat) rows.

Lemma record_of_row_total (r : row) :
  (5 <= length r)%nat -> exists c rec, record_of_row r = Ok (c, rec).
Proof.
  intros Hlen. unfold record_of_row, row_get.
  destruct r as [|c0 [|c1 [|c2 [|c3 [|c4 r]]]]]; simpl in Hlen; try lia.
  simpl. eauto.
Qed.

Lemma build_map_total (rows : list row) :
  wide rows -> forall m, exists m', build_map rows m = Ok m'.
Proof.
  induction 1 as [|r rows Hr _ IH]; intros m; simpl; [eauto|].
  destruct (record_of_row_total r Hr) as (c & rec & ->). simpl. apply IH.
Qed.

(** C4 (as stated) fails: a net count of -1500 shares gives -2 lots, where
    truncation gives -1. *)
Lemma lots_not_truncated :
  record_of_row FlowSamples.tsmc_row = Ok ("2330", FlowSamples.tsmc_record) /\
  f_net_shares FlowSamples.tsmc_record = -1500 /\
  f_net FlowSamples.tsmc_record = -2 /\
  Z.quot (f_net_shares FlowSamples.tsmc_record) 1000 = -1 /\
  ~ (forall r c rec, record_of_row r = Ok (c, rec) ->
       f_net rec = Z.quot (f_net_shares rec) 1000).
Proof.
  assert (He : record_of_row FlowSamples.tsmc_row
               = Ok ("2330", FlowSamples.tsmc_record)) by (vm_compute; reflexivity).
  repeat split; try reflexivity; try exact He.
  intros Hall. specialize (Hall _ _ _ He). vm_compute in Hall. discriminate.
Qed.

(** C4 (amended): for every feed row that parses, on either path, each lot
    field is the floor of its share count divided by 1000 (the largest [q]
    with [1000 * q <= shares]); this is the truncated quotient when the
    share count is non-negative or a multiple of 1000, and one less than
    it otherwise. *)
Theorem lots_are_floor_quotients (r : row) (c : string) (rec : flow_record) :
  record_of_row r = Ok (c, rec) \/ record_of_row2 r = Ok (c, rec) ->
  let lots_of (lots shares : Z) :=
    1000 * lots <= shares < 1000 * lots + 1000 /\
    (0 <= shares \/ shares mod 1000 = 0 -> lots = Z.quot shares 1000) /\
    (shares < 0 /\ shares mod 1000 <> 0 -> lots = Z.quot shares 1000 - 1) in
  lots_of (f_buy rec) (f_buy_shares rec) /\
  lots_of (f_sell rec) (f_sell_shares rec) /\
  lots_of (f_net rec) (f_net_shares rec).
Proof.
  intros Hr. assert (Hr' : record_of_row r = Ok (c, rec)).
  { destruct Hr as [Hr|Hr]; [exact Hr | rewrite <- record_of_row2_same; exact Hr]. }
  destruct (record_of_row_fields _ _ _ Hr')
    as (c0 & c1 & c2 & c3 & c4 & _ & _ & _ & _ & _ & _ & ->).
  cbv zeta; simpl.
  repeat split;
    try (apply floor_lots; reflexivity);
    try (apply (proj1 (floor_vs_truncation _)));
    try (apply (proj2 (floor_vs_truncation _))).
Qed.

Lemma lots_are_floor_quotients_witness :
  (record_of_row FlowSamples.tsmc_row = Ok ("2330", FlowSamples.tsmc_record) \/
   record_of_row2 FlowSamples.tsmc_row = Ok ("2330", FlowSamples.tsmc_record)) /\
  1000 * f_net FlowSamples.tsmc_record <= f_net_shares FlowSamples.tsmc_record
    < 1000 * f_net FlowSamples.tsmc_record + 1000.
Proof.
  assert (He : record_of_row FlowSamples.tsmc_row
               = Ok ("2330", FlowSamples.tsmc_record)
            \/ record_of_row2 FlowSamples.tsmc_row
               = Ok ("2330", FlowSamples.tsmc_record))
    by (left; vm_compute; reflexivity).
  split; [exact He|].
  exact (proj1 (proj2 (proj2
           (lots_are_floor_quotients FlowSamples.tsmc_row "2330"
              FlowSamples.tsmc_record He)))).
Defined.

Section Walk.
Context `{PyDatetime}.
Variable fetch : feed.

Definition lookup_map (o : outcome) : result (pydict flow_record) :=
  r <- snd o ;; Ok (fst r).

Lemma usable_iff (d : response) :
  usable d = true <->
  stat d = Some "OK" /\ exists r rs, data d = Some (r :: rs).
Proof.
  unfold usable. destruct (stat d) as [s|].
  - destruct (String.eqb_spec s "OK") as [->|Hs].
    + destruct (data d) as [[|r rs]|]; split;
        try (intros [_ (r' & rs' & Hd)]; discriminate);
        try discriminate; eauto.
    + split; [discriminate|]. intros [Hs' _]. congruence.
  - split; [discriminate|]. intros [Hs _]. discriminate.
Qed.

Lemma walk_log_length (dt : datetime) (range : list nat) :
  (length (fst (walk fetch dt range)) <= length range)%nat.
Proof.
  induction range as [|i range IH]; simpl; [lia|].
  destruct (minus_days dt i) as [prev|e]; simpl; [|lia].
  destruct (usable (fetch (strftime_ymd prev))); simpl; [lia|].
  destruct (walk fetch dt range) as [log r]. simpl in *. lia.
Qed.

Lemma walk_exhausted (dt : datetime) (range : list nat) :
  (forall i, In i range -> is_ok (minus_days dt i) = true) ->
  (forall i, In i range -> usable (fetch (day_back dt i)) = false) ->
  walk fetch dt range = (map (day_back dt) range, Ok ([], EmptyString)).
Proof.
  induction range as [|i range IH]; intros Hok Hno; simpl; [reflexivity|].
  pose proof (Hok i (or_introl eq_refl)) as Hi.
  pose proof (Hno i (or_introl eq_refl)) as Hu.
  unfold day_back in *. destruct (minus_days dt i) as [prev|e];
    [|discriminate].
  rewrite Hu, IH; [reflexivity| |]; intros j Hj;
    [apply Hok | apply Hno]; right; exact Hj.
Qed.

Lemma walk_found (dt : datetime) (before after : list nat) (k : nat) :
  (forall i, In i (before ++ [k]) -> is_ok (minus_days dt i) = true) ->
  (forall i, In i before -> usable (fetch (day_back dt i)) = false) ->
  usable (fetch (day_back dt k)) = true ->
  walk fetch dt (before ++ k :: after) =
    (map (day_back dt) (before ++ [k]),
     foreign_map <- build_map2 (rows_of (fetch (day_back dt k))) [] ;;
     Ok (foreign_map, display (day_back dt k))).
Proof.
  induction before as [|i before IH]; intros Hok Hno Hyes; simpl.
  - pose proof (Hok k (or_introl eq_refl)) as Hk.
    unfold day_back in *. destruct (minus_days dt k) as [prev|e];
      [|discriminate].
    rewrite Hyes. reflexivity.
  - pose proof (Hok i (or_introl eq_refl)) as Hi.
    pose proof (Hno i (or_introl eq_refl)) as Hu.
    rewrite IH; [| | |exact Hyes].
    + unfold day_back in *. destruct (minus_days dt i) as [prev|e];
        [|discriminate].
      rewrite Hu. reflexivity.
    + intros j Hj. apply Hok. right. exact Hj.
    + intros j Hj. apply Hno. right. exact Hj.
Qed.

Lemma seq_split_at (k : nat) :
  (1 <= k <= 7)%nat ->
  range_1_8 = (seq 1 (k - 1) ++ k :: seq (S k) (7 - k))%list.
Proof.
  intros Hk. unfold range_1_8.
  do 8 (destruct k as [|k]; [try lia; try reflexivity|]). lia.
Qed.

Lemma seq_snoc (k : nat) :
  (1 <= k)%nat -> (seq 1 (k - 1) ++ [k])%list = seq 1 k.
Proof.
  intros Hk. destruct k as [|k]; [lia|].
  replace (S k - 1)%nat with k by lia. rewrite seq_S. reflexivity.
Qed.

(** C5: a response is usable iff its status is the sentinel and its row
    set is non-empty; a usable first response is answered from the
    requested day; otherwise the builder asks for the days one to seven
    before it, in that order and no further, answers from the first
    usable one with that day's display form, and returns the empty
    mapping and the empty date, without raising, when none is usable. *)
Theorem backward_walk (target_date : string) :
  (forall d, usable d = true <->
             stat d = Some "OK" /\ exists r rs, data d = Some (r :: rs)) /\
  (length (fst (fetch_twse_foreign_data fetch target_date)) <= 1 + 7)%nat /\
  (usable (fetch target_date) = true ->
     fetch_twse_foreign_data fetch target_date =
       ([target_date],
        foreign_map <- build_map (rows_of (fetch target_date)) [] ;;
        Ok (foreign_map, display target_date))) /\
  (forall dt,
     usable (fetch target_date) = false ->
     strptime_ymd target_date = Ok dt ->
     (forall i, (1 <= i <= 7)%nat -> is_ok (minus_days dt i) = true) ->
     (forall k,
        (1 <= k <= 7)%nat ->
        (forall j, (1 <= j < k)%nat ->
                   usable (fetch (day_back dt j)) = false) ->
        usable (fetch (day_back dt k)) = true ->
        fetch_twse_foreign_data fetch target_date =
          (target_date :: map (day_back dt) (seq 1 k),
           foreign_map <- build_map2 (rows_of (fetch (day_back dt k))) [] ;;
           Ok (foreign_map, display (day_back dt k))) /\
        (wide (rows_of (fetch (day_back dt k))) ->
         exists foreign_map,
           snd (fetch_twse_foreign_data fetch target_date) =
             Ok (foreign_map, display (day_back dt k)))) /\
     ((forall k, (1 <= k <= 7)%nat ->
                 usable (fetch (day_back dt k)) = false) ->
      fetch_twse_foreign_data fetch target_date =
        (target_date :: map (day_back dt) (seq 1 7),
         Ok ([], EmptyString)))).
Proof.
  split; [exact usable_iff|]. split; [|split].
  - unfold fetch_twse_foreign_data.
    destruct (usable (fetch target_date)); [simpl; lia|].
    destruct (strptime_ymd target_date) as [dt|e]; [|simpl; lia].
    pose proof (walk_log_length dt range_1_8) as Hlen.
    change (length range_1_8) with 7%nat in Hlen.
    destruct (walk fetch dt range_1_8) as [log r]. simpl in *. lia.
  - intros Hu. unfold fetch_twse_foreign_data. rewrite Hu. reflexivity.
  - intros dt Hu Hdt Hback. split.
    + intros k Hk Hbefore Hyes.
      assert (Hrun : fetch_twse_foreign_data fetch target_date =
          (target_date :: map (day_back dt) (seq 1 k),
           foreign_map <- build_map2 (rows_of (fetch (day_back dt k))) [] ;;
           Ok (foreign_map, display (day_back dt k)))).
      { unfold fetch_twse_foreign_data. rewrite Hu, Hdt.
        rewrite (seq_split_at k Hk), walk_found.
        - rewrite seq_snoc by lia. reflexivity.
        - intros i Hi. apply Hback. apply in_app_or in Hi.
          destruct Hi as [Hi|[<-|[]]]; [apply in_seq in Hi|]; lia.
        - intros i Hi. apply Hbefore. apply in_seq in Hi. lia.
        - exact Hyes. }
      split; [exact Hrun|].
      intros Hwide. rewrite Hrun. simpl.
      rewrite build_map2_same.
      destruct (build_map_total _ Hwide []) as [m ->]. simpl. eauto.
    + intros Hno. unfold fetch_twse_foreign_data. rewrite Hu, Hdt.
      rewrite walk_exhausted; [reflexivity| |]; intros i Hi;
        apply in_seq in Hi; [apply Hback | apply Hno]; lia.
Qed.
End Walk.

(** C10: the backward walk parses share counts, derives lots and builds
    records and the mapping exactly as the first attempt does; a response
    met on the first step back yields the same mapping as the same response
    met on the first attempt. *)
Theorem fallback_builds_like_first_attempt :
  (forall v, parse_shares2 v = parse_shares v) /\
  (forall r, record_of_row2 r = record_of_row r) /\
  (forall rows m, build_map2 rows m = build_map rows m) /\
  (forall (D : PyDatetime) (first later : feed) (target_date : string)
          (dt prev : datetime),
     usable (first target_date) = true ->
     usable (later target_date) = false ->
     strptime_ymd target_date = Ok dt ->
     minus_days dt 1 = Ok prev ->
     later (strftime_ymd prev) = first target_date ->
     lookup_map (fetch_twse_foreign_data later target_date) =
     lookup_map (fetch_twse_foreign_data first target_date)).
Proof.
  split; [exact parse_shares2_same|].
  split; [exact record_of_row2_same|].
  split; [exact build_map2_same|].
  intros D first later target_date dt prev Hfirst Hlater Hdt Hprev Hsame.
  unfold lookup_map, fetch_twse_foreign_data.
  rewrite Hfirst, Hlater, Hdt. simpl. rewrite Hprev, Hsame, Hfirst. simpl.
  rewrite build_map2_same.
  destruct (build_map (rows_of (first target_date)) []); reflexivity.
Qed.

Lemma march_3_steps_back (i : nat) :
  (1 <= i <= 7)%nat ->
  is_ok (minus_days (PyDatetime := Calendar.gregorian)
           FlowSamples.march_3 i) = true.
Proof.
  intros Hi. simpl. unfold Calendar.back, FlowSamples.march_3.
  destruct (Z.leb_spec 1 (738948 - Z.of_nat i)); [reflexivity | lia].
Qed.

Lemma backward_walk_witness :
  let found := fetch_twse_foreign_data (H := Calendar.gregorian)
                 FlowSamples.march_feed "20240303" in
  let missed := fetch_twse_foreign_data (H := Calendar.gregorian)
                  FlowSamples.silent_feed "20240303" in
  usable (FlowSamples.march_feed "20240303") = false /\
  strptime_ymd (PyDatetime := Calendar.gregorian) "20240303"
    = Ok FlowSamples.march_3 /\
  found = (["20240303"; "20240302"; "20240301"],
           Ok ([("2330", FlowSamples.tsmc_record)], "03/01")) /\
  missed = (["20240303"; "20240302"; "20240301"; "20240229"; "20240228";
             "20240227"; "20240226"; "20240225"],
            Ok ([], EmptyString)).
Proof.
  intros found missed.
  assert (Hu : usable (FlowSamples.march_feed "20240303") = false)
    by reflexivity.
  assert (Hdt : strptime_ymd (PyDatetime := Calendar.gregorian) "20240303"
                = Ok FlowSamples.march_3) by (vm_compute; reflexivity).
  split; [exact Hu|]. split; [exact Hdt|]. split.
  - unfold found.
    rewrite (proj1 (proj1 (proj2 (proj2 (proj2
               (backward_walk (H := Calendar.gregorian)
                  FlowSamples.march_feed "20240303")))
               FlowSamples.march_3 Hu Hdt march_3_steps_back) 2%nat
               ltac:(lia)
               ltac:(intros j Hj; assert (j = 1%nat) as -> by lia;
                     vm_compute; reflexivity)
               ltac:(vm_compute; reflexivity))).
    vm_compute. reflexivity.
  - unfold missed.
    rewrite (proj2 (proj2 (proj2 (proj2
               (backward_walk (H := Calendar.gregorian)
                  FlowSamples.silent_feed "20240303")))
               FlowSamples.march_3 ltac:(reflexivity) Hdt march_3_steps_back)
               ltac:(intros k _; reflexivity)).
    vm_compute. reflexivity.
Defined.

Lemma fallback_builds_like_first_attempt_witness :
  usable (FlowSamples.steady_feed "20240302") = true /\
  usable (FlowSamples.march_feed "20240302") = false /\
  lookup_map (fetch_twse_foreign_data (H := Calendar.gregorian)
                FlowSamples.march_feed "20240302") =
  lookup_map (fetch_twse_foreign_data (H := Calendar.gregorian)
                FlowSamples.steady_feed "20240302").
Proof.
  split; [reflexivity|]. split; [reflexivity|].
  apply (proj2 (proj2 (proj2 fallback_builds_like_first_attempt))
           Calendar.gregorian FlowSamples.steady_feed FlowSamples.march_feed
           "20240302" 738947 738946);
    vm_compute; reflexivity.
Defined.

End FlowFacts.

(** ** Reconciler *)

Module SortFacts.
Import Reconcile.

Section Sorting.
Context {A : Type}.
Variable key : A -> Z.



Lemma insert_by_perm (x : A) (l : list A) :
  Permutation (insert_by key x l) (x :: l).
Proof.
  induction l as [|y l IH]; simpl; [reflexivity|].
  destruct (key x <=? key y); [reflexivity|].
  rewrite IH. apply perm_swap.
Qed.

Lemma stable_sort_perm (l : list A) : Permutation (stable_sort key l) l.
Proof.
  induction l as [|x l IH]; simpl; [reflexivity|].
  rewrite insert_by_perm. constructor. exact IH.
Qed.








(** What [sort] guarantees, in both directions. *)
Lemma list_sort_perm (reverse : bool) (l : list A) :
  Permutation (list_sort key reverse l) l.
Proof.
  unfold list_sort. destruct reverse; [|apply stable_sort_perm].
  rewrite <- Permutation_rev, stable_sort_perm, <- Permutation_rev.
  reflexivity.
Qed.



End Sorting.





End SortFacts.

Module DictFacts.

Section Dict.
Context {V : Type}.
Implicit Types (d : pydict V) (k : string) (v : V).

Lemma dict_get_set_same d k v : dict_get (dict_set d k v) k = Some v.
Proof.
  induction d as [|[k' v'] d IH]; simpl.
  - rewrite String.eqb_refl. reflexivity.
  - destruct (String.eqb k k') eqn:E; simpl; rewrite E; [reflexivity | exact IH].
Qed.

Lemma dict_get_set_other d k k' v :
  k' <> k -> dict_get (dict_set d k v) k' = dict_get d k'.
Proof.
  intros Hne. induction d as [|[k0 v0] d IH]; simpl.
  - destruct (String.eqb_spec k' k); [contradiction | reflexivity].
  - destruct (String.eqb_spec k k0) as [->|Hk]; simpl.
    + destruct (String.eqb_spec k' k0); [contradiction | reflexivity].
    + destruct (String.eqb k' k0); [reflexivity | exact IH].
Qed.

Lemma dict_keys_set d k v :
  dict_keys (dict_set d k v) = dict_keys d \/
  (~ In k (dict_keys d) /\
   dict_keys (dict_set d k v) = (dict_keys d ++ [k])%list).
Proof.
  unfold dict_keys. induction d as [|[k0 v0] d IH]; simpl.
  - right. split; [tauto | reflexivity].
  - destruct (String.eqb_spec k k0) as [->|Hk]; simpl; [left; reflexivity|].
    destruct IH as [IH|[Hnot IH]]; rewrite IH; [left; reflexivity|].
    right. split; [|reflexivity]. intros [Heq|Hin]; [congruence | tauto].
Qed.

Lemma dict_set_nodup d k v :
  NoDup (dict_keys d) -> NoDup (dict_keys (dict_set d k v)).
Proof.
  intros Hd. destruct (dict_keys_set d k v) as [->|[Hnot ->]]; [exact Hd|].
  apply NoDup_app; [exact Hd | repeat constructor; simpl; tauto |].
  intros a Ha [<-|[]]. contradiction.
Qed.

Lemma dict_get_in d k v : dict_get d k = Some v -> In (k, v) d.
Proof.
  induction d as [|[k0 v0] d IH]; simpl; [discriminate|].
  destruct (String.eqb_spec k k0) as [->|Hk].
  - intros [= ->]. left. reflexivity.
  - intros Hget. right. apply IH, Hget.
Qed.

Lemma in_dict_get d k v :
  NoDup (dict_keys d) -> In (k, v) d -> dict_get d k = Some v.
Proof.
  unfold dict_keys. induction d as [|[k0 v0] d IH]; simpl; [tauto|].
  intros Hnd [Heq|Hin].
  - injection Heq as -> ->. rewrite String.eqb_refl. reflexivity.
  - inversion Hnd as [|? ? Hk0 Hd]; subst.
    destruct (String.eqb_spec k k0) as [->|Hk]; [|apply IH; assumption].
    exfalso. apply Hk0. apply (in_map fst) in Hin. exact Hin.
Qed.
End Dict.

Lemma find_app {A : Type} (p : A -> bool) (l1 l2 : list A) :
  find p (l1 ++ l2) =
  match find p l1 with Some a => Some a | None => find p l2 end.
Proof.
  induction l1 as [|a l1 IH]; simpl; [reflexivity|].
  destruct (p a); [reflexivity | exact IH].
Qed.

(** The last element of [l] that satisfies [p]. *)
Lemma find_last {A : Type} (p : A -> bool) (l : list A) (x : A) :
  find p (rev l) = Some x <->
  exists pre post,
    l = (pre ++ x :: post)%list /\ p x = true /\
    Forall (fun y => p y = false) post.
Proof.
  split.
  - revert x. induction l as [|y l IH] using rev_ind; intros x; simpl.
    + discriminate.
    + rewrite rev_app_distr. simpl. destruct (p y) eqn:Hy.
      * intros [= <-]. exists l, []. repeat split; [exact Hy | constructor].
      * intros Hf. destruct (IH x Hf) as (pre & post & -> & Hx & Hpost).
        exists pre, (post ++ [y])%list. rewrite <- app_assoc. simpl.
        repeat split; [exact Hx|].
        apply Forall_app. split; [exact Hpost | repeat constructor; exact Hy].
  - intros (pre & post & -> & Hx & Hpost).
    rewrite rev_app_distr. simpl. rewrite <- app_assoc, find_app.
    replace (find p (rev post)) with (@None A).
    + simpl. rewrite Hx. reflexivity.
    + symmetry. apply Forall_rev in Hpost.
      induction Hpost as [|y l Hy _ IH]; simpl; [reflexivity|].
      rewrite Hy. exact IH.
Qed.

(** A dictionary filled by a loop of assignments [m[key x] = val x]. *)
Section FromList.
Context {X V : Type}.
Variable key : X -> string.
Variable val : X -> V.

Definition from_list (l : list X) (d : pydict V) : pydict V :=
  fold_left (fun m x => dict_set m (key x) (val x)) l d.

Lemma get_from_list (l : list X) :
  forall d c,
    dict_get (from_list l d) c =
    match find (fun x => String.eqb c (key x)) (rev l) with
    | Some x => Some (val x)
    | None => dict_get d c
    end.
Proof.
  unfold from_list.
  induction l as [|x l IH]; intros d c; simpl; [reflexivity|].
  rewrite IH, find_app. simpl.
  destruct (find (fun x0 => String.eqb c (key x0)) (rev l)); [reflexivity|].
  destruct (String.eqb_spec c (key x)) as [->|Hc].
  - apply dict_get_set_same.
  - apply dict_get_set_other. exact Hc.
Qed.

Lemma from_list_nodup (l : list X) :
  forall d, NoDup (dict_keys d) -> NoDup (dict_keys (from_list l d)).
Proof.
  unfold from_list. induction l as [|x l IH]; intros d Hd; simpl; [exact Hd|].
  apply IH, dict_set_nodup, Hd.
Qed.

Lemma find_key_none (l : list X) (c : string) :
  find (fun x => String.eqb c (key x)) l = None <-> ~ In c (map key l).
Proof.
  induction l as [|x l IH]; simpl; [tauto|].
  destruct (String.eqb_spec c (key x)) as [->|Hc].
  - split; [discriminate | tauto].
  - rewrite IH. split; [intros Hn [Heq|Hin]; [congruence | tauto] | tauto].
Qed.

Lemma get_from_empty_none (l : list X) (c : string) :
  dict_get (from_list l []) c = None <-> ~ In c (map key l).
Proof.
  rewrite get_from_list.
  destruct (find (fun x => String.eqb c (key x)) (rev l)) as [x|] eqn:Hf.
  - split; [discriminate|]. intros Hnot. exfalso. apply Hnot.
    apply find_some in Hf. destruct Hf as [Hin Heq].
    apply String.eqb_eq in Heq. subst c.
    apply in_map. apply in_rev. exact Hin.
  - apply find_key_none in Hf. split; [|reflexivity].
    intros _ Hin. apply Hf. rewrite map_rev. apply in_rev.
    rewrite rev_involutive. exact Hin.
Qed.

Lemma get_from_empty_some (l : list X) (c : string) (v : V) :
  dict_get (from_list l []) c = Some v <->
  exists pre x post,
    l = (pre ++ x :: post)%list /\ key x = c /\
    ~ In c (map key post) /\ v = val x.
Proof.
  rewrite get_from_list. split.
  - destruct (find (fun x => String.eqb c (key x)) (rev l)) as [x|] eqn:Hf;
      [|discriminate].
    intros [= <-]. apply find_last in Hf.
    destruct Hf as (pre & post & -> & Hx & Hpost).
    exists pre, x, post. apply String.eqb_eq in Hx.
    split; [reflexivity|]. split; [congruence|]. split; [|reflexivity].
    rewrite in_map_iff. intros (y & Hy & Hin).
    rewrite Forall_forall in Hpost. specialize (Hpost y Hin).
    rewrite <- Hy, String.eqb_refl in Hpost. discriminate.
  - intros (pre & x & post & -> & Hx & Hpost & ->).
    replace (find (fun x0 => String.eqb c (key x0))
                  (rev (pre ++ x :: post))) with (Some x); [reflexivity|].
    symmetry. apply find_last. exists pre, post.
    split; [reflexivity|]. split; [subst c; apply String.eqb_refl|].
    apply Forall_forall. intros y Hy.
    destruct (String.eqb_spec c (key y)) as [->|]; [|reflexivity].
    exfalso. apply Hpost. apply in_map. exact Hy.
Qed.
End FromList.

End DictFacts.

Module ReconcileFacts.
Import Extract Flow Reconcile SortFacts DictFacts.

Section Classification.
Context {FT : PyFloatType}.

(** The three tests the loop makes, read off the record it builds. *)
Definition is_buy (x : classified) : bool :=
  match net x with Some n => 0 <? n | None => false end.
Definition is_sell (x : classified) : bool :=
  match net x with Some n => negb (0 <? n) | None => false end.
Definition has_no_flow (x : classified) : bool :=
  match net x with Some _ => false | None => true end.

Definition all_merged (stocks : list merged)
    (foreign_map : pydict flow_record) : list classified :=
  map (merged_of foreign_map) stocks.

Lemma merged_of_found (foreign_map : pydict flow_record) (s : merged)
    (fdata : flow_record) :
  dict_get foreign_map (m_code s) = Some fdata ->
  merged_of foreign_map s = with_flow s fdata.
Proof. unfold merged_of. intros ->. reflexivity. Qed.

Lemma merged_of_missing (foreign_map : pydict flow_record) (s : merged) :
  dict_get foreign_map (m_code s) = None ->
  merged_of foreign_map s = without_flow s.
Proof. unfold merged_of. intros ->. reflexivity. Qed.

Lemma classify_spec (foreign_map : pydict flow_record) (stocks : list merged) :
  forall b s n,
    classify stocks foreign_map b s n =
      ((b ++ filter is_buy (all_merged stocks foreign_map))%list,
       (s ++ filter is_sell (all_merged stocks foreign_map))%list,
       (n ++ filter has_no_flow (all_merged stocks foreign_map))%list).
Proof.
  induction stocks as [|x stocks IH]; intros b s n.
  - simpl. rewrite !app_nil_r. reflexivity.
  - change (all_merged (x :: stocks) foreign_map)
      with (merged_of foreign_map x :: all_merged stocks foreign_map).
    cbn [classify filter].
    destruct (dict_get foreign_map (m_code x)) as [fdata|] eqn:Hget.
    + rewrite (merged_of_found _ _ _ Hget).
      change (is_buy (with_flow x fdata)) with (0 <? f_net fdata).
      change (is_sell (with_flow x fdata)) with (negb (0 <? f_net fdata)).
      change (has_no_flow (with_flow x fdata)) with false.
      destruct (0 <? f_net fdata); cbn [negb]; rewrite IH, <- app_assoc;
        reflexivity.
    + rewrite (merged_of_missing _ _ Hget).
      change (is_buy (without_flow x)) with false.
      change (is_sell (without_flow x)) with false.
      change (has_no_flow (without_flow x)) with true.
      cbn iota. rewrite IH, <- app_assoc. reflexivity.
Qed.

Lemma merge_and_classify_spec (stocks : list merged)
    (foreign_map : pydict flow_record) :
  merge_and_classify stocks foreign_map =
    (list_sort net_key true (filter is_buy (all_merged stocks foreign_map)),
     list_sort net_key false (filter is_sell (all_merged stocks foreign_map)),
     filter has_no_flow (all_merged stocks foreign_map)).
Proof.
  unfold merge_and_classify. rewrite classify_spec. reflexivity.
Qed.

Lemma in_buying (stocks : list merged) (foreign_map : pydict flow_record)
    (x : classified) :
  In x (buying (merge_and_classify stocks foreign_map)) <->
  In x (all_merged stocks foreign_map) /\ is_buy x = true.
Proof.
  rewrite merge_and_classify_spec. unfold buying. cbn [fst snd].
  rewrite <- filter_In.
  split; apply Permutation_in; [|symmetry]; apply list_sort_perm.
Qed.

Lemma in_selling (stocks : list merged) (foreign_map : pydict flow_record)
    (x : classified) :
  In x (selling (merge_and_classify stocks foreign_map)) <->
  In x (all_merged stocks foreign_map) /\ is_sell x = true.
Proof.
  rewrite merge_and_classify_spec. unfold selling. cbn [fst snd].
  rewrite <- filter_In.
  split; apply Permutation_in; [|symmetry]; apply list_sort_perm.
Qed.

Lemma in_no_flow_data (stocks : list merged)
    (foreign_map : pydict flow_record) (x : classified) :
  In x (no_flow_data (merge_and_classify stocks foreign_map)) <->
  In x (all_merged stocks foreign_map) /\ has_no_flow x = true.
Proof.
  rewrite merge_and_classify_spec. unfold no_flow_data. cbn [fst snd].
  rewrite <- filter_In. reflexivity.
Qed.

Lemma merged_of_code (foreign_map : pydict flow_record) (s : merged) :
  c_code (merged_of foreign_map s) = m_code s.
Proof.
  unfold merged_of, c_code.
  destruct (dict_get foreign_map (m_code s)); reflexivity.
Qed.


(** The flow entry behind a classified record. *)
Lemma net_of_merged (stocks : list merged) (foreign_map : pydict flow_record)
    (x : classified) :
  In x (all_merged stocks foreign_map) ->
  net x = option_map f_net (dict_get foreign_map (c_code x)).
Proof.
  unfold all_merged. rewrite in_map_iff. intros (s & <- & _).
  rewrite merged_of_code. unfold merged_of.
  destruct (dict_get foreign_map (m_code s)); reflexivity.
Qed.

(** C1: a merged record whose identifier is in the flow lookup lands in
    [buying] exactly when its net lots are strictly positive and in
    [selling] exactly when they are zero or negative, and never in
    [noFlowData]; a record whose identifier is not in the lookup lands in
    [noFlowData] only, with the six flow fields [None]. *)
Theorem routing_by_net_lots (stocks : list merged)
    (foreign_map : pydict flow_record) (s : merged) :
  In s stocks ->
  let g := merge_and_classify stocks foreign_map in
  let x := merged_of foreign_map s in
  (forall fdata,
     dict_get foreign_map (m_code s) = Some fdata ->
     x = with_flow s fdata /\
     (In x (buying g) <-> 0 < f_net fdata) /\
     (In x (selling g) <-> f_net fdata <= 0) /\
     ~ In x (no_flow_data g)) /\
  (dict_get foreign_map (m_code s) = None ->
   In x (no_flow_data g) /\ ~ In x (buying g) /\ ~ In x (selling g) /\
   buy x = None /\ sell x = None /\ net x = None /\
   buy_shares x = None /\ sell_shares x = None /\ net_shares x = None /\
   net x <> Some 0).
Proof.
  intros Hs g x.
  assert (Hall : In x (all_merged stocks foreign_map))
    by (apply in_map; exact Hs).
  subst g. split.
  - intros fdata Hget.
    assert (Hx : x = with_flow s fdata)
      by (subst x; unfold merged_of; rewrite Hget; reflexivity).
    split; [exact Hx|].
    rewrite in_buying, in_selling, in_no_flow_data.
    unfold is_buy, is_sell, has_no_flow. rewrite Hx. simpl.
    rewrite <- Hx.
    destruct (Z.ltb_spec 0 (f_net fdata)); simpl;
      repeat split; try tauto; try lia; intros [_ ?]; discriminate.
  - intros Hget.
    assert (Hx : x = without_flow s)
      by (subst x; unfold merged_of; rewrite Hget; reflexivity).
    rewrite in_buying, in_selling, in_no_flow_data.
    unfold is_buy, is_sell, has_no_flow. rewrite Hx. simpl.
    rewrite <- Hx.
    repeat split; try assumption; try discriminate;
      intros [_ ?]; discriminate.
Qed.

Lemma three_way_split (l : list classified) :
  Permutation
    (filter is_buy l ++ filter is_sell l ++ filter has_no_flow l)%list l.
Proof.
  induction l as [|x l IH]; simpl; [reflexivity|].
  unfold is_buy at 1, is_sell at 1, has_no_flow at 1.
  destruct (net x) as [n|]; [destruct (0 <? n)|]; simpl.
  - constructor. exact IH.
  - symmetry. apply Permutation_cons_app. symmetry. exact IH.
  - symmetry. rewrite app_assoc. apply Permutation_cons_app.
    rewrite <- app_assoc. symmetry. exact IH.
Qed.

(** C2: the three groups hold every merged record once (their
    concatenation is a rearrangement of the records built from the merged
    set), so the sizes add up, and no identifier is in two groups. *)
Theorem groups_partition (stocks : list merged)
    (foreign_map : pydict flow_record) :
  let g := merge_and_classify stocks foreign_map in
  Permutation (buying g ++ selling g ++ no_flow_data g)%list
              (map (merged_of foreign_map) stocks) /\
  (length (buying g) + length (selling g) + length (no_flow_data g)
   = length stocks)%nat /\
  (forall x y, In x (buying g) -> In y (selling g) -> c_code x <> c_code y) /\
  (forall x y, In x (buying g) -> In y (no_flow_data g) ->
               c_code x <> c_code y) /\
  (forall x y, In x (selling g) -> In y (no_flow_data g) ->
               c_code x <> c_code y).
Proof.
  intros g.
  assert (Hperm : Permutation (buying g ++ selling g ++ no_flow_data g)%list
                              (map (merged_of foreign_map) stocks)).
  { subst g. rewrite merge_and_classify_spec.
    unfold buying, selling, no_flow_data. cbn [fst snd].
    rewrite !list_sort_perm. apply three_way_split. }
  split; [exact Hperm|]. split.
  - apply Permutation_length in Hperm.
    rewrite !length_app, length_map in Hperm. lia.
  - assert (Hexcl : forall (p q : classified -> bool) x y,
              In x (all_merged stocks foreign_map) /\ p x = true ->
              In y (all_merged stocks foreign_map) /\ q y = true ->
              (forall n, p n = true -> q n = true -> False) ->
              (forall n m, net n = net m -> p n = p m /\ q n = q m) ->
              c_code x <> c_code y).
    { intros p q x y [Hx Hpx] [Hy Hqy] Hpq Hnet Hcode.
      apply net_of_merged in Hx. apply net_of_merged in Hy.
      rewrite <- Hcode, <- Hx in Hy.
      destruct (Hnet y x Hy) as [_ Hq]. rewrite Hq in Hqy.
      exact (Hpq x Hpx Hqy). }
    subst g. repeat split; intros x y Hx Hy.
    + apply in_buying in Hx. apply in_selling in Hy.
      apply (Hexcl is_buy is_sell x y Hx Hy).
      * unfold is_buy, is_sell. intros n.
        destruct (net n) as [k|]; [destruct (0 <? k)|]; simpl; congruence.
      * unfold is_buy, is_sell. intros n m ->. auto.
    + apply in_buying in Hx. apply in_no_flow_data in Hy.
      apply (Hexcl is_buy has_no_flow x y Hx Hy).
      * unfold is_buy, has_no_flow. intros n.
        destruct (net n); congruence.
      * unfold is_buy, has_no_flow. intros n m ->. auto.
    + apply in_selling in Hx. apply in_no_flow_data in Hy.
      apply (Hexcl is_sell has_no_flow x y Hx Hy).
      * unfold is_sell, has_no_flow. intros n.
        destruct (net n); congruence.
      * unfold is_sell, has_no_flow. intros n m ->. auto.
Qed.
End Classification.

Section Horizons.
Context {FT : PyFloatType}.

(** The value stored in [ten_day_map] for a 10-day record. *)
Definition entry_of (s : stock) : ten_day_entry :=
  {| ten_day_change := five_day_change s;
     ten_day_pct := five_day_pct s;
     ten_day_rank := rank s;
     full := s |}.

(** The records loop (B) appends: one per key of [ten_day_map] that is not
    a key of [five_day_map], in the order of the keys. *)
Definition secondary_only (five_day_map : pydict stock)
    (ten_day_map : pydict ten_day_entry) : list merged :=
  map (fun kv => only_10d (snd kv))
      (filter (fun kv => negb (dict_mem five_day_map (fst kv))) ten_day_map).

Lemma add_only_10d_spec (five_day_map : pydict stock)
    (items : list (string * ten_day_entry)) :
  forall stocks,
    add_only_10d items five_day_map stocks =
    (stocks ++ secondary_only five_day_map items)%list.
Proof.
  unfold secondary_only.
  induction items as [|[c td] items IH]; intros stocks; simpl.
  - rewrite app_nil_r. reflexivity.
  - destruct (dict_mem five_day_map c); simpl; rewrite IH;
      [|rewrite <- app_assoc]; reflexivity.
Qed.

Lemma merge_horizons_spec (stocks_5d stocks_10d : list stock) :
  merge_horizons stocks_5d stocks_10d =
  (map (attach (ten_day_map_of stocks_10d)) stocks_5d ++
   secondary_only (five_day_map_of stocks_5d)
                  (ten_day_map_of stocks_10d))%list.
Proof. unfold merge_horizons. apply add_only_10d_spec. Qed.

Lemma five_day_mem (stocks_5d : list stock) (c : string) :
  dict_mem (five_day_map_of stocks_5d) c = true <->
  In c (map code stocks_5d).
Proof.
  unfold dict_mem.
  change (five_day_map_of stocks_5d)
    with (from_list code (fun s => s) stocks_5d []).
  pose proof (get_from_empty_none code (fun s => s) stocks_5d c) as Hnone.
  destruct (dict_get (from_list code (fun s => s) stocks_5d []) c).
  - split; [|reflexivity]. intros _.
    destruct (in_dec string_dec c (map code stocks_5d)) as [Hin|Hout];
      [exact Hin|].
    apply Hnone in Hout. discriminate.
  - split; [discriminate|]. intros Hin.
    exfalso. apply (proj1 Hnone eq_refl). exact Hin.
Qed.

Lemma ten_day_get (stocks_10d : list stock) (c : string)
    (td : ten_day_entry) :
  dict_get (ten_day_map_of stocks_10d) c = Some td <->
  exists pre x post,
    stocks_10d = (pre ++ x :: post)%list /\ code x = c /\
    ~ In c (map code post) /\ td = entry_of x.
Proof. apply (get_from_empty_some code entry_of). Qed.

Lemma ten_day_missing (stocks_10d : list stock) (c : string) :
  dict_get (ten_day_map_of stocks_10d) c = None <->
  ~ In c (map code stocks_10d).
Proof. apply (get_from_empty_none code entry_of). Qed.

Lemma ten_day_keys_nodup (stocks_10d : list stock) :
  NoDup (dict_keys (ten_day_map_of stocks_10d)).
Proof. apply (from_list_nodup code entry_of). constructor. Qed.

Lemma split_at_length {A : Type} (l1 l2 : list A) :
  firstn (length l1) (l1 ++ l2) = l1 /\ skipn (length l1) (l1 ++ l2) = l2.
Proof.
  induction l1 as [|a l1 [IH1 IH2]]; simpl; [split; reflexivity|].
  rewrite IH1, IH2. split; reflexivity.
Qed.

(** C7: the merged list is the 5-day records in their order, each with the
    10-day pair of its identifier's entry in the 10-day lookup, or [None]
    twice when the identifier has none, followed by one new record for
    each identifier that is in the 10-day lookup only; such a record takes
    its rank and common fields from the (last) 10-day record of that
    identifier, has the 5-day pair [None] and carries the 10-day pair. *)
Theorem two_horizon_merge (stocks_5d stocks_10d : list stock) :
  let ten_day_map := ten_day_map_of stocks_10d in
  let stocks := merge_horizons stocks_5d stocks_10d in
  let added := skipn (length stocks_5d) stocks in
  firstn (length stocks_5d) stocks = map (attach ten_day_map) stocks_5d /\
  (forall s,
     m_rank (attach ten_day_map s) = rank s /\
     m_code (attach ten_day_map s) = code s /\
     m_five_day_change (attach ten_day_map s) = Some (five_day_change s) /\
     m_five_day_pct (attach ten_day_map s) = Some (five_day_pct s) /\
     (forall pre x post,
        stocks_10d = (pre ++ x :: post)%list -> code x = code s ->
        ~ In (code s) (map code post) ->
        m_ten_day_change (attach ten_day_map s) = Some (five_day_change x) /\
        m_ten_day_pct (attach ten_day_map s) = Some (five_day_pct x)) /\
     (~ In (code s) (map code stocks_10d) ->
      m_ten_day_change (attach ten_day_map s) = None /\
      m_ten_day_pct (attach ten_day_map s) = None)) /\
  (forall pre x post,
     stocks_10d = (pre ++ x :: post)%list ->
     ~ In (code x) (map code post) ->
     ~ In (code x) (map code stocks_5d) ->
     let new := only_10d (entry_of x) in
     In new added /\
     m_rank new = rank x /\ m_code new = code x /\ m_name new = name x /\
     m_close new = close x /\ m_change new = change x /\
     m_change_pct new = change_pct x /\ m_volume new = volume x /\
     m_five_day_change new = None /\ m_five_day_pct new = None /\
     m_ten_day_change new = Some (five_day_change x) /\
     m_ten_day_pct new = Some (five_day_pct x)) /\
  (forall y,
     In y added ->
     ~ In (m_code y) (map code stocks_5d) /\
     exists pre x post,
       stocks_10d = (pre ++ x :: post)%list /\
       ~ In (code x) (map code post) /\ y = only_10d (entry_of x)) /\
  NoDup (map m_code added).
Proof.
  intros ten_day_map stocks added.
  assert (Hstocks : stocks =
            (map (attach ten_day_map) stocks_5d ++
             secondary_only (five_day_map_of stocks_5d) ten_day_map)%list)
    by apply merge_horizons_spec.
  destruct (split_at_length (map (attach ten_day_map) stocks_5d)
              (secondary_only (five_day_map_of stocks_5d) ten_day_map))
    as [Hfirst Hskip].
  rewrite length_map, <- Hstocks in Hfirst, Hskip.
  fold added in Hskip. rewrite Hfirst, Hskip.
  clear Hfirst Hskip Hstocks.
  assert (Hitem : forall c td,
             In (c, td) ten_day_map <-> dict_get ten_day_map c = Some td).
  { intros c td. split; [|apply dict_get_in].
    apply in_dict_get, ten_day_keys_nodup. }
  assert (Hadded : forall y,
             In y (secondary_only (five_day_map_of stocks_5d) ten_day_map) <->
             exists c td, dict_get ten_day_map c = Some td /\
                          ~ In c (map code stocks_5d) /\ y = only_10d td).
  { intros y. unfold secondary_only. rewrite in_map_iff. split.
    - intros ([c td] & <- & Hin). apply filter_In in Hin.
      destruct Hin as [Hin Hmem]. simpl in *. exists c, td.
      split; [apply Hitem, Hin|]. split; [|reflexivity].
      rewrite <- five_day_mem. intros Hm. rewrite Hm in Hmem. discriminate.
    - intros (c & td & Hget & Hout & ->). exists (c, td).
      split; [reflexivity|]. apply filter_In.
      split; [apply Hitem, Hget|]. simpl.
      destruct (dict_mem (five_day_map_of stocks_5d) c) eqn:Hm;
        [|reflexivity].
      exfalso. apply Hout, five_day_mem, Hm. }
  split; [reflexivity|]. split; [|split; [|split]].
  - intros s. unfold attach. simpl.
    do 4 (split; [reflexivity|]). split.
    + intros pre x post Hs Hx Hpost.
      assert (Hget : dict_get ten_day_map (code s) = Some (entry_of x))
        by (apply ten_day_get; exists pre, x, post; auto).
      rewrite Hget. split; reflexivity.
    + intros Hout. apply ten_day_missing in Hout.
      fold ten_day_map in Hout. rewrite Hout. split; reflexivity.
  - intros pre x post Hs Hpost Hout new. subst new.
    split; [|do 10 (split; [reflexivity|]); reflexivity].
    apply Hadded. exists (code x), (entry_of x).
    split; [|split; [exact Hout | reflexivity]].
    apply ten_day_get. exists pre, x, post. auto.
  - intros y Hy. apply Hadded in Hy.
    destruct Hy as (c & td & Hget & Hout & ->).
    apply ten_day_get in Hget.
    destruct Hget as (pre & x & post & Hs & <- & Hpost & ->).
    split; [exact Hout|]. exists pre, x, post. auto.
  - unfold secondary_only.
    assert (Hcodes : forall items : list (string * ten_day_entry),
               (forall c td, In (c, td) items -> code (full td) = c) ->
               map m_code (map (fun kv => only_10d (snd kv)) items)
               = map fst items).
    { intros items Hc. rewrite map_map. apply map_ext_in.
      intros [c td] Hin. simpl. apply Hc, Hin. }
    rewrite Hcodes.
    + pose proof (ten_day_keys_nodup stocks_10d) as Hnd.
      fold ten_day_map in Hnd. unfold dict_keys in Hnd.
      revert Hnd. generalize ten_day_map as items.
      induction items as [|[c td] items IH]; simpl; intros Hnd;
        [constructor|].
      inversion Hnd as [|? ? Hc Hrest]; subst.
      destruct (negb (dict_mem (five_day_map_of stocks_5d) c)); simpl;
        [|apply IH, Hrest].
      constructor; [|apply IH, Hrest].
      intros Hin. apply Hc. apply in_map_iff in Hin.
      destruct Hin as ([c' td'] & Heq & Hin). simpl in Heq. subst c'.
      apply filter_In in Hin. destruct Hin as [Hin _].
      apply (in_map fst) in Hin. exact Hin.
    + intros c td Hin. apply filter_In in Hin. destruct Hin as [Hin _].
      apply Hitem, ten_day_get in Hin.
      destruct Hin as (pre & x & post & _ & <- & _ & ->). reflexivity.
Qed.
End Horizons.

Definition ranks_of (l : list (classified (FT := Decimal.decimal_type)))
  : list (string * Z * option Z) :=
  map (fun x => (c_code x, c_rank x, net x)) l.


Lemma routing_by_net_lots_witness :
  let g := merge_and_classify ReconcileSamples.merged_2330_4444
             ReconcileSamples.flow_2330 in
  In ReconcileSamples.merged_2330 ReconcileSamples.merged_2330_4444 /\
  In ReconcileSamples.merged_4444 ReconcileSamples.merged_2330_4444 /\
  In (merged_of ReconcileSamples.flow_2330 ReconcileSamples.merged_2330)
     (buying g) /\
  In (merged_of ReconcileSamples.flow_2330 ReconcileSamples.merged_4444)
     (no_flow_data g) /\
  ranks_of (buying g) = [("2330", 1, Some 120)] /\
  ranks_of (selling g) = [] /\
  ranks_of (no_flow_data g) = [("4444", 2, None)].
Proof.
  intros g.
  assert (H1 : In ReconcileSamples.merged_2330
                  ReconcileSamples.merged_2330_4444) by (left; reflexivity).
  assert (H2 : In ReconcileSamples.merged_4444
                  ReconcileSamples.merged_2330_4444)
    by (right; left; reflexivity).
  split; [exact H1|]. split; [exact H2|]. split; [|split].
  - destruct (proj1 (routing_by_net_lots ReconcileSamples.merged_2330_4444
                       ReconcileSamples.flow_2330
                       ReconcileSamples.merged_2330 H1)
                (ReconcileSamples.flow_of "TSMC" 200000 80000) eq_refl)
      as (_ & Hbuy & _).
    apply Hbuy. vm_compute. reflexivity.
  - exact (proj1 (proj2 (routing_by_net_lots ReconcileSamples.merged_2330_4444
                           ReconcileSamples.flow_2330
                           ReconcileSamples.merged_4444 H2) eq_refl)).
  - repeat split; vm_compute; reflexivity.
Defined.


Lemma two_horizon_merge_witness :
  let nine := ReconcileSamples.quote 1 "9999" "NINE" (-300) in
  let stocks := merge_horizons ReconcileSamples.primary_2330
                  ReconcileSamples.secondary_2330_9999 in
  ReconcileSamples.secondary_2330_9999
    = ([ReconcileSamples.quote 3 "2330" "TSMC" (-120)] ++ nine :: [])%list /\
  ~ In (code nine) (map code (@nil (@stock Decimal.decimal_type))) /\
  ~ In (code nine) (map code ReconcileSamples.primary_2330) /\
  In (only_10d (entry_of nine)) (skipn 1 stocks) /\
  map (fun m => (m_code m, m_rank m,
                 m_five_day_change m, m_ten_day_change m)) stocks
  = [("2330", 1, Some (-80, 1%nat), Some (-120, 1%nat));
     ("9999", 1, None, Some (-300, 1%nat))].
Proof.
  intros nine stocks.
  assert (Hs : ReconcileSamples.secondary_2330_9999
               = ([ReconcileSamples.quote 3 "2330" "TSMC" (-120)]
                    ++ nine :: [])%list) by reflexivity.
  assert (Hpost : ~ In (code nine) (map code (@nil (@stock Decimal.decimal_type)))) by (simpl; tauto).
  assert (Hout : ~ In (code nine) (map code ReconcileSamples.primary_2330))
    by (simpl; intros [E|[]]; discriminate).
  split; [exact Hs|]. split; [exact Hpost|]. split; [exact Hout|].
  split; [|vm_compute; reflexivity].
  exact (proj1 (proj1 (proj2 (proj2
           (two_horizon_merge ReconcileSamples.primary_2330
              ReconcileSamples.secondary_2330_9999)))
           [ReconcileSamples.quote 3 "2330" "TSMC" (-120)] nine [] Hs Hpost
           Hout)).
Defined.

End ReconcileFacts.

(** ** Ranking extractor *)

Module StrFacts.
Import PyStr.

Lemma append_assoc (a b c : string) : (a ++ b) ++ c = a ++ (b ++ c).
Proof. induction a as [|x a IH]; simpl; [reflexivity | rewrite IH; reflexivity]. Qed.

Lemma append_nil_r (a : string) : a ++ EmptyString = a.
Proof. induction a as [|x a IH]; simpl; [reflexivity | rewrite IH; reflexivity]. Qed.

Lemma length_append (a b : string) :
  String.length (a ++ b) = (String.length a + String.length b)%nat.
Proof. induction a as [|x a IH]; simpl; [reflexivity | rewrite IH; reflexivity]. Qed.








Lemma digit_not_space (c : ascii) : is_digit c = true -> is_space c = false.
Proof.
  destruct c as [[] [] [] [] [] [] [] []]; vm_compute; congruence.
Qed.

End StrFacts.

Module DateFacts.
Import PyStr Extract StrFacts.













Section ReferenceDate.
Context {FT : PyFloatType} {HF : PyFloat}.

End ReferenceDate.



End DateFacts.

Module IntFacts.
Import PyStr StrFacts.

Lemma digit_not_int_space (c : ascii) :
  is_digit c = true -> is_int_space c = false.
Proof.
  destruct c as [[] [] [] [] [] [] [] []]; vm_compute; congruence.
Qed.

Lemma drop_while_end_keeps (p : ascii -> bool) (s : string) :
  all_chars (fun c => negb (p c)) s = true -> drop_while_end p s = s.
Proof.
  induction s as [|c s IH]; simpl; [reflexivity|].
  intros Hall. apply andb_prop in Hall. destruct Hall as [Hc Hs].
  rewrite (IH Hs). destruct s; [|reflexivity].
  apply negb_true_iff in Hc. rewrite Hc. reflexivity.
Qed.

Lemma all_chars_impl (p q : ascii -> bool) (s : string) :
  (forall c, p c = true -> q c = true) ->
  all_chars p s = true -> all_chars q s = true.
Proof.
  intros Hpq. induction s as [|c s IH]; simpl; [reflexivity|].
  intros Hall. apply andb_prop in Hall. destruct Hall as [Hc Hs].
  rewrite (Hpq c Hc), (IH Hs). reflexivity.
Qed.



End IntFacts.

Module ScanFacts.
Import PyStr Extract StrFacts IntFacts.



(** The non-empty texts of [cells], in order. *)
Definition texts (cells : list td) : list string :=
  filter (fun t => negb (is_empty t)) (map td_text cells).


Lemma is_rank_true (t : string) :
  is_rank t = Ok true ->
  exists n, PyInt.int t = Some n /\ 1 <= n <= 999 /\ isdigit t = true.
Proof.
  unfold is_rank, int_or_raise. destruct (isdigit t); [|discriminate].
  destruct (PyInt.int t) as [n|]; simpl; [|discriminate].
  intros [= Hb]. apply andb_prop in Hb. destruct Hb as [Hlo Hhi].
  apply Z.leb_le in Hlo. apply Z.leb_le in Hhi. exists n. auto.
Qed.

Lemma collect_spec (cells : list td) :
  forall j0 rem0 rem j,
    collect cells j0 rem0 = Ok (rem, j) ->
    (j0 <= j <= j0 + length cells)%nat /\
    rem = (rem0 ++ texts (firstn (j - j0) cells))%list /\
    (length rem <= Nat.max 8 (length rem0))%nat.
Proof.
  unfold texts.
  induction cells as [|c cells IH]; intros j0 rem0 rem j; cbn [collect].
  - intros [= <- <-]. rewrite Nat.sub_diag. cbn [firstn map filter].
    rewrite app_nil_r. repeat split; lia.
  - destruct (Nat.ltb_spec (length rem0) 8) as [Hlt|Hge].
    + destruct (is_rank (td_text c)) as [m|e]; [|discriminate].
      cbn [bind].
      destruct (m && Nat.leb 6 (length rem0))%bool.
      * intros [= <- <-]. rewrite Nat.sub_diag. cbn [firstn map filter].
        rewrite app_nil_r. repeat split; lia.
      * destruct (is_empty (td_text c)) eqn:Hempty; intros Hc;
          apply IH in Hc; destruct Hc as (Hj & -> & Hlen);
          replace (j - j0)%nat with (S (j - S j0)) by lia;
          cbn [firstn map filter length]; rewrite Hempty; cbn [negb].
        -- repeat split; lia.
        -- rewrite <- app_assoc. cbn [app].
           split; [lia|]. split; [reflexivity|].
           rewrite !length_app in *. cbn [length] in *. lia.
    + intros [= <- <-]. rewrite Nat.sub_diag. cbn [firstn map filter].
      rewrite app_nil_r. repeat split; lia.
Qed.



Lemma is_empty_false (t : string) : is_empty t = false <-> t <> EmptyString.
Proof. destruct t; simpl; split; congruence. Qed.







Section Steps.
Context {FT : PyFloatType} {HF : PyFloat}.

(** The record a rank cell and its name cell give with the values
    [remaining]. *)
Definition record_at (name_td : td) (rank : Z)
    (remaining : list string) : stock :=
  make_stock rank (resolve_code name_td)
    (strip (sub_code_prefix (td_text name_td))) remaining.

(** When a pass of the loop appends a record, and which. *)
Lemma step_emits (all_tds : list td) (i i' : nat) (rec : stock) :
  step all_tds i = Ok (Next i' (Some rec)) <->
  exists cell rank name_td remaining,
    nth_error all_tds i = Some cell /\
    is_rank (td_text cell) = Ok true /\
    PyInt.int (td_text cell) = Some rank /\
    nth_error all_tds (i + 1) = Some name_td /\
    resolve_code name_td <> EmptyString /\
    collect (skipn (i + 2) all_tds) (i + 2) [] = Ok (remaining, i') /\
    (6 <= length remaining)%nat /\
    rec = record_at name_td rank remaining.
Proof.
  unfold step, record_at, int_or_raise. split.
  - destruct (nth_error all_tds i) as [cell|]; [|discriminate].
    destruct (is_rank (td_text cell)) as [[|]|e] eqn:Hrank;
      cbn [bind]; try discriminate.
    destruct (PyInt.int (td_text cell)) as [rank|] eqn:Hint; cbn [bind];
      [|discriminate].
    destruct (nth_error all_tds (i + 1)) as [name_td|]; [|discriminate].
    destruct (is_empty (resolve_code name_td)) eqn:Hcode; [discriminate|].
    destruct (collect (skipn (i + 2) all_tds) (i + 2) [])
      as [[remaining j]|e]; cbn [bind]; [|discriminate].
    destruct (Nat.leb_spec 6 (length remaining)) as [Hsix|Hfew];
      [|discriminate].
    intros [= <- <-]. exists cell, rank, name_td, remaining.
    apply is_empty_false in Hcode. repeat split; auto.
  - intros (cell & rank & name_td & remaining & -> & -> & -> & -> & Hcode
            & -> & Hsix & ->).
    cbn [bind]. apply is_empty_false in Hcode. rewrite Hcode.
    apply Nat.leb_le in Hsix. rewrite Hsix. reflexivity.
Qed.


(** Every pass that goes on moves the cursor forward, inside the list. *)
Lemma step_advances (all_tds : list td) (i i' : nat) (e : option stock) :
  step all_tds i = Ok (Next i' e) -> (i < i' <= length all_tds)%nat.
Proof.
  unfold step, int_or_raise.
  destruct (nth_error all_tds i) as [cell|] eqn:Hcell; [|discriminate].
  assert (Hi : (i < length all_tds)%nat)
    by (apply nth_error_Some; congruence).
  destruct (is_rank (td_text cell)) as [[|]|err]; cbn [bind];
    try discriminate; [|intros [= <- _]; lia].
  destruct (PyInt.int (td_text cell)) as [rank|]; cbn [bind];
    [|discriminate].
  destruct (nth_error all_tds (i + 1)) as [name_td|] eqn:Hname;
    [|discriminate].
  assert (Hi1 : (i + 1 < length all_tds)%nat)
    by (apply nth_error_Some; congruence).
  destruct (is_empty (resolve_code name_td)); [intros [= <- _]; lia|].
  destruct (collect (skipn (i + 2) all_tds) (i + 2) [])
    as [[remaining j]|err] eqn:Hcollect; cbn [bind]; [|discriminate].
  apply collect_spec in Hcollect. destruct Hcollect as (Hj & _ & _).
  rewrite length_skipn in Hj.
  destruct (Nat.leb 6 (length remaining)); intros [= <- _]; lia.
Qed.
End Steps.


Section Scanning.
Context {FT : PyFloatType} {HF : PyFloat}.




(** What a finished scan appended: at strictly increasing cursor
    positions, each the position of a pass that appended that record. *)
Definition appended_at (all_tds : list td) (p : nat * stock) : Prop :=
  exists i', step all_tds (fst p) = Ok (Next i' (Some (snd p))).

Lemma scan_trace (all_tds : list td) :
  forall fuel i trace,
    scan fuel all_tds i = Ok trace ->
    Forall (fun p => (i <= fst p)%nat) trace /\
    StronglySorted lt (map fst trace) /\
    Forall (appended_at all_tds) trace.
Proof.
  induction fuel as [|fuel IH]; intros i trace; cbn [scan].
  - intros [= <-]. repeat constructor.
  - destruct (step all_tds i) as [[|i' e]|err] eqn:Hstep; cbn [bind];
      [intros [= <-]; repeat constructor | | discriminate].
    destruct (scan fuel all_tds i') as [rest|err] eqn:Hrest; cbn [bind];
      [|discriminate].
    intros [= <-]. destruct (IH i' rest Hrest) as (Hlow & Hsorted & Hsteps).
    pose proof (step_advances _ _ _ _ Hstep) as Hadv.
    assert (Hlow' : Forall (fun p => (i < fst p)%nat) rest).
    { eapply Forall_impl; [|exact Hlow]. simpl. intros; lia. }
    destruct e as [s|].
    + split; [|split].
      * constructor; [simpl; lia|].
        eapply Forall_impl; [|exact Hlow']. simpl. intros; lia.
      * simpl. constructor; [exact Hsorted|].
        apply Forall_map. exact Hlow'.
      * constructor; [|exact Hsteps]. exists i'. exact Hstep.
    + split; [|split; assumption].
      eapply Forall_impl; [|exact Hlow']. simpl. intros; lia.
Qed.

End Scanning.

Section Extraction.
Context {FT : PyFloatType} {HF : PyFloat}.




Lemma texts_length (cells : list td) :
  (length (texts cells) <= length cells)%nat.
Proof.
  unfold texts. rewrite <- (length_map td_text cells). apply filter_length_le.
Qed.

(** A pass that appends a record consumes at least eight cells. *)
Lemma emit_span (all_tds : list td) (i i' : nat) (s : stock) :
  step all_tds i = Ok (Next i' (Some s)) -> (i + 8 <= i')%nat.
Proof.
  intros Hstep. apply step_emits in Hstep.
  destruct Hstep as (_ & _ & _ & remaining & _ & _ & _ & _ & _ & Hcollect
                     & Hsix & _).
  apply collect_spec in Hcollect. destruct Hcollect as (Hj & Hrem & _).
  simpl in Hrem. subst remaining.
  pose proof (texts_length (firstn (i' - (i + 2)) (skipn (i + 2) all_tds)))
    as Hlen.
  rewrite length_firstn in Hlen. lia.
Qed.

Lemma scan_count (all_tds : list td) :
  forall fuel i trace,
    scan fuel all_tds i = Ok trace -> (i <= length all_tds)%nat ->
    (8 * length trace + i <= length all_tds)%nat.
Proof.
  induction fuel as [|fuel IH]; intros i trace; cbn [scan].
  - intros [= <-] Hi. simpl. lia.
  - destruct (step all_tds i) as [[|i' e]|err] eqn:Hstep; cbn [bind];
      [intros [= <-] Hi; simpl; lia | | discriminate].
    destruct (scan fuel all_tds i') as [rest|err] eqn:Hrest; cbn [bind];
      [|discriminate].
    intros [= <-] Hi. pose proof (step_advances _ _ _ _ Hstep) as Hadv.
    specialize (IH i' rest Hrest ltac:(lia)).
    destruct e as [s|]; [|lia].
    apply emit_span in Hstep. cbn [length]. lia.
Qed.

(** Every extracted record has a rank between 1 and 999 and a non-empty
    code, and each record accounts for at least eight cells of the page. *)
Theorem records_well_formed (page_text : string) (all_tds : list td)
    (stocks : list stock) (d : string) :
  fetch_fubon_ranking page_text all_tds = Ok (stocks, d) ->
  Forall (fun s => 1 <= rank s <= 999 /\ code s <> EmptyString) stocks /\
  (8 * length stocks <= length all_tds)%nat.
Proof.
  unfold fetch_fubon_ranking, scan_from.
  destruct (scan (S (length all_tds - 0)) all_tds 0) as [trace|e] eqn:Hscan;
    cbn [bind]; [|discriminate].
  intros [= <- _]. split.
  - apply scan_trace in Hscan. destruct Hscan as (_ & _ & Hsteps).
    apply Forall_map. eapply Forall_impl; [|exact Hsteps].
    intros p [i' Hstep]. apply step_emits in Hstep.
    destruct Hstep as (cell & rank & name_td & remaining & _ & Hrank
                       & Hint & _ & Hcode & _ & _ & ->).
    apply is_rank_true in Hrank. destruct Hrank as (n & Hn & Hrange & _).
    rewrite Hint in Hn. injection Hn as ->. simpl. auto.
  - apply scan_count in Hscan; [|lia]. rewrite length_map. lia.
Qed.





End Extraction.

Lemma sample_page_extracted :
  fetch_fubon_ranking (HF := Decimal.decimal_float)
    ExtractSamples.page_text ExtractSamples.page_cells
  = Ok ([ExtractSamples.tsmc_stock; ExtractSamples.tsmc_again_stock], "02/05").
Proof. vm_compute. reflexivity. Qed.


Lemma records_well_formed_witness :
  fetch_fubon_ranking (HF := Decimal.decimal_float)
    ExtractSamples.page_text ExtractSamples.page_cells
  = Ok ([ExtractSamples.tsmc_stock; ExtractSamples.tsmc_again_stock], "02/05")
  /\
  (8 * 2 <= length ExtractSamples.page_cells)%nat.
Proof.
  split; [exact sample_page_extracted|].
  exact (proj2 (records_well_formed _ _ _ _ sample_page_extracted)).
Defined.

Lemma limit_at_least_ten : (10 <= PyInt.int_max_str_digits)%nat.
Proof. apply Nat.leb_le. vm_compute. reflexivity. Qed.




(** *** Regular tables *)













Section Tables.
Context {FT : PyFloatType} {HF : PyFloat}.








End Tables.





End ScanFacts.

(* ================================================================== *)
(** ** The flow lookup: contents, failures *)

Module FlowMapFacts.
Import PyStr Flow DictFacts FlowFacts.

(** The key and the value a row of at least five items contributes. *)
Definition row_code (r : row) : string := strip (nth 0 r EmptyString).

Definition row_flow (r : row) : flow_record :=
  let buy_shares := parse_shares (nth 2 r EmptyString) in
  let sell_shares := parse_shares (nth 3 r EmptyString) in
  let net_shares := parse_shares (nth 4 r EmptyString) in
  {| f_name := strip (nth 1 r EmptyString);
     f_buy := buy_shares / 1000;
     f_sell := sell_shares / 1000;
     f_net := net_shares / 1000;
     f_buy_shares := buy_shares;
     f_sell_shares := sell_shares;
     f_net_shares := net_shares |}.

Definition short (r : row) : Prop := (length r < 5)%nat.

Lemma row_get_nth (r : row) (k : nat) :
  (k < length r)%nat -> row_get r k = Ok (nth k r EmptyString).
Proof.
  intros Hk. unfold row_get.
  rewrite (nth_error_nth' r EmptyString Hk). reflexivity.
Qed.

Lemma row_get_short (r : row) (k : nat) :
  (length r <= k)%nat -> row_get r k = Raise IndexError.
Proof.
  intros Hk. unfold row_get.
  apply nth_error_None in Hk. rewrite Hk. reflexivity.
Qed.

Lemma record_of_row_wide (r : row) :
  (5 <= length r)%nat -> record_of_row r = Ok (row_code r, row_flow r).
Proof.
  intros Hlen. unfold record_of_row.
  rewrite !row_get_nth by lia. reflexivity.
Qed.

Lemma record_of_row_short (r : row) :
  short r -> record_of_row r = Raise IndexError.
Proof.
  unfold short. intros Hlen. unfold record_of_row.
  destruct (Nat.le_gt_cases (length r) 0) as [H0|H0];
    [rewrite (row_get_short r 0) by lia; reflexivity|].
  rewrite (row_get_nth r 0) by lia. cbn [bind].
  destruct (Nat.le_gt_cases (length r) 1) as [H1|H1];
    [rewrite (row_get_short r 1) by lia; reflexivity|].
  rewrite (row_get_nth r 1) by lia. cbn [bind].
  destruct (Nat.le_gt_cases (length r) 2) as [H2|H2];
    [rewrite (row_get_short r 2) by lia; reflexivity|].
  rewrite (row_get_nth r 2) by lia. cbn [bind].
  destruct (Nat.le_gt_cases (length r) 3) as [H3|H3];
    [rewrite (row_get_short r 3) by lia; reflexivity|].
  rewrite (row_get_nth r 3) by lia. cbn [bind].
  rewrite (row_get_short r 4) by lia. reflexivity.
Qed.

Lemma build_map_wide (rows : list row) :
  wide rows ->
  forall m, build_map rows m = Ok (from_list row_code row_flow rows m).
Proof.
  induction 1 as [|r rows Hr _ IH]; intros m; [reflexivity|].
  cbn [build_map]. rewrite (record_of_row_wide r Hr). cbn [bind].
  rewrite IH. reflexivity.
Qed.

Lemma build_map_short (rows : list row) :
  Exists short rows -> forall m, build_map rows m = Raise IndexError.
Proof.
  induction rows as [|r rows IH]; intros Hex m.
  - inversion Hex.
  - cbn [build_map].
    destruct (Nat.le_gt_cases 5 (length r)) as [Hr|Hr].
    + rewrite (record_of_row_wide r Hr). cbn [bind]. apply IH.
      inversion Hex as [? ? Hs|? ? Hrest]; subst;
        [unfold short in Hs; lia | exact Hrest].
    + rewrite (record_of_row_short r Hr). reflexivity.
Qed.

Lemma wide_or_short (rows : list row) : wide rows \/ Exists short rows.
Proof.
  induction rows as [|r rows [IH|IH]].
  - left. constructor.
  - destruct (Nat.le_gt_cases 5 (length r)) as [Hr|Hr].
    + left. constructor; assumption.
    + right. apply Exists_cons_hd. exact Hr.
  - right. apply Exists_cons_tl. exact IH.
Qed.

Lemma wide_not_short (rows : list row) :
  wide rows -> Exists short rows -> False.
Proof.
  intros Hw Hs. apply Exists_exists in Hs. destruct Hs as (r & Hin & Hr).
  unfold wide in Hw. rewrite Forall_forall in Hw.
  specialize (Hw r Hin). unfold short in Hr. lia.
Qed.





Section Failures.
Context `{PyDatetime}.
Variable fetch : feed.

Lemma walk_raises (dt : datetime) (e : exn) (k : nat) (after : list nat) :
  forall before,
    (forall i, In i before -> is_ok (minus_days dt i) = true) ->
    (forall i, In i before -> usable (fetch (day_back dt i)) = false) ->
    minus_days dt k = Raise e ->
    walk fetch dt (before ++ k :: after)
    = (map (day_back dt) before, Raise e).
Proof.
  induction before as [|i before IH]; intros Hok Hun Hk.
  - cbn [app walk map]. rewrite Hk. reflexivity.
  - cbn [app walk map].
    pose proof (Hok i (or_introl eq_refl)) as Hi.
    pose proof (Hun i (or_introl eq_refl)) as Hu.
    unfold day_back in Hu |- *.
    destruct (minus_days dt i) as [d|e'] eqn:Hd; [|discriminate].
    rewrite Hu.
    rewrite IH;
      [reflexivity
      |intros j Hj; apply Hok; right; exact Hj
      |intros j Hj; apply Hun; right; exact Hj
      |exact Hk].
Qed.

(** A row with fewer than five items makes the builder raise IndexError,
    and nothing else does; the exception leaves the lookup at once: there
    is no step back to an earlier day, and the rows read before are lost. *)
Theorem short_row_aborts_lookup :
  (forall rows m, (exists m', build_map rows m = Ok m') <-> wide rows) /\
  (forall rows m, build_map rows m = Raise IndexError <-> Exists short rows) /\
  (forall target_date,
     usable (fetch target_date) = true ->
     Exists short (rows_of (fetch target_date)) ->
     fetch_twse_foreign_data fetch target_date
     = ([target_date], Raise IndexError)) /\
  (forall target_date dt k,
     usable (fetch target_date) = false ->
     strptime_ymd target_date = Ok dt ->
     (forall i, (1 <= i <= 7)%nat -> is_ok (minus_days dt i) = true) ->
     (1 <= k <= 7)%nat ->
     (forall j, (1 <= j < k)%nat -> usable (fetch (day_back dt j)) = false) ->
     usable (fetch (day_back dt k)) = true ->
     Exists short (rows_of (fetch (day_back dt k))) ->
     fetch_twse_foreign_data fetch target_date
     = (target_date :: map (day_back dt) (seq 1 k), Raise IndexError)).
Proof.
  split; [|split; [|split]].
  - intros rows m. split.
    + intros (m' & Hb). destruct (wide_or_short rows) as [Hw|Hs];
        [exact Hw|]. rewrite (build_map_short rows Hs) in Hb. discriminate.
    + intros Hw. eexists. apply (build_map_wide rows Hw).
  - intros rows m. split.
    + intros Hb. destruct (wide_or_short rows) as [Hw|Hs]; [|exact Hs].
      rewrite (build_map_wide rows Hw) in Hb. discriminate.
    + intros Hs. apply (build_map_short rows Hs).
  - intros target_date Hu Hs. unfold fetch_twse_foreign_data.
    rewrite Hu, (build_map_short _ Hs). reflexivity.
  - intros target_date dt k Hu Hdt Hok Hk Hbefore Hfound Hs.
    unfold fetch_twse_foreign_data. rewrite Hu, Hdt.
    rewrite (seq_split_at k Hk).
    rewrite (walk_found fetch dt (seq 1 (k - 1)) (seq (S k) (7 - k)) k).
    + rewrite build_map2_same, (build_map_short _ Hs).
      rewrite seq_snoc by lia. reflexivity.
    + intros i Hi. apply Hok. rewrite seq_snoc in Hi by lia.
      apply in_seq in Hi. lia.
    + intros i Hi. apply Hbefore. apply in_seq in Hi. lia.
    + exact Hfound.
Qed.

(** A target date that does not parse, or a step back the calendar cannot
    take, raises out of the lookup once the first response has proved
    unusable; the requests made before stay made. *)
Theorem date_errors_propagate (target_date : string) (e : exn) :
  usable (fetch target_date) = false ->
  (strptime_ymd target_date = Raise e ->
   fetch_twse_foreign_data fetch target_date = ([target_date], Raise e)) /\
  (forall dt k,
     strptime_ymd target_date = Ok dt ->
     (1 <= k <= 7)%nat ->
     (forall j, (1 <= j < k)%nat ->
                is_ok (minus_days dt j) = true /\
                usable (fetch (day_back dt j)) = false) ->
     minus_days dt k = Raise e ->
     fetch_twse_foreign_data fetch target_date
     = (target_date :: map (day_back dt) (seq 1 (k - 1)), Raise e)).
Proof.
  intros Hu. split.
  - intros Hdt. unfold fetch_twse_foreign_data. rewrite Hu, Hdt.
    reflexivity.
  - intros dt k Hdt Hk Hbefore Hraise.
    unfold fetch_twse_foreign_data. rewrite Hu, Hdt.
    rewrite (seq_split_at k Hk).
    rewrite (walk_raises dt e k (seq (S k) (7 - k)) (seq 1 (k - 1))).
    + reflexivity.
    + intros i Hi. apply in_seq in Hi. apply Hbefore. lia.
    + intros i Hi. apply in_seq in Hi. apply Hbefore. lia.
    + exact Hraise.
Qed.
End Failures.

(** A day whose second row stops after the name. *)
Definition cut_day : response :=
  {| stat := Some "OK";
     data := Some [FlowSamples.tsmc_row; ["1101"; "TCC"]] |}.

Definition cut_feed : feed :=
  fun d => if String.eqb d "20240301" then cut_day else FlowSamples.closed_day.

Lemma cut_day_short : Exists short (rows_of cut_day).
Proof. apply Exists_cons_tl. apply Exists_cons_hd. unfold short. simpl. lia. Qed.

Lemma short_row_aborts_lookup_witness :
  usable (cut_feed "20240301") = true /\
  Exists short (rows_of (cut_feed "20240301")) /\
  fetch_twse_foreign_data (H := Calendar.gregorian) cut_feed "20240301"
  = (["20240301"], Raise IndexError) /\
  fetch_twse_foreign_data (H := Calendar.gregorian) cut_feed "20240303"
  = (["20240303"; "20240302"; "20240301"], Raise IndexError).
Proof.
  destruct (short_row_aborts_lookup (H := Calendar.gregorian) cut_feed)
    as (_ & _ & Hfirst & Hlater).
  split; [reflexivity|]. split; [exact cut_day_short|].
  split; [exact (Hfirst "20240301" eq_refl cut_day_short)|].
  refine (Hlater "20240303" FlowSamples.march_3 2%nat eq_refl eq_refl
            march_3_steps_back _ _ eq_refl cut_day_short).
  - lia.
  - intros j Hj. assert (j = 1%nat) as -> by lia. reflexivity.
Defined.

Lemma date_errors_propagate_witness :
  usable (FlowSamples.silent_feed "2024-03-03") = false /\
  strptime_ymd (PyDatetime := Calendar.gregorian) "2024-03-03"
  = Raise ValueError /\
  fetch_twse_foreign_data (H := Calendar.gregorian) FlowSamples.silent_feed
    "2024-03-03" = (["2024-03-03"], Raise ValueError) /\
  fetch_twse_foreign_data (H := Calendar.gregorian) FlowSamples.silent_feed
    "00010103"
  = (["00010103"; "00010102"; "00010101"], Raise OverflowError).
Proof.
  split; [reflexivity|]. split; [reflexivity|].
  split.
  - exact (proj1 (date_errors_propagate (H := Calendar.gregorian)
                    FlowSamples.silent_feed "2024-03-03" ValueError eq_refl)
                 eq_refl).
  - refine (proj2 (date_errors_propagate (H := Calendar.gregorian)
                     FlowSamples.silent_feed "00010103" OverflowError eq_refl)
                  3 3%nat eq_refl _ _ eq_refl).
    + lia.
    + intros j Hj. assert (j = 1%nat \/ j = 2%nat) as [-> | ->] by lia;
        split; reflexivity.
Defined.

End FlowMapFacts.

(* ================================================================== *)
(** ** Share counts: what [parse_shares] reads *)

Module SharesFacts.
Import PyStr Flow StrFacts IntFacts.

(** The number a string of digits denotes. *)
Fixpoint decimal_value (acc : Z) (s : string) : Z :=
  match s with
  | EmptyString => acc
  | String c s' => decimal_value (10 * acc + digit_val c) s'
  end.

(** Digits and thousands separators only. *)
Definition grouped (v : string) : bool :=
  all_chars (fun c => (is_digit c || Ascii.eqb c ",")%bool) v.


Lemma drop_while_all (p : ascii -> bool) (a s : string) :
  all_chars p a = true -> drop_while p (a ++ s) = drop_while p s.
Proof.
  induction a as [|c a IH]; simpl; [reflexivity|].
  intros Hall. apply andb_prop in Hall. destruct Hall as [Hc Ha].
  rewrite Hc. exact (IH Ha).
Qed.

Lemma drop_while_end_all (p : ascii -> bool) (b : string) :
  all_chars p b = true -> drop_while_end p b = EmptyString.
Proof.
  induction b as [|c b IH]; simpl; [reflexivity|].
  intros Hall. apply andb_prop in Hall. destruct Hall as [Hc Hb].
  rewrite (IH Hb), Hc. reflexivity.
Qed.

Lemma drop_while_end_app (p : ascii -> bool) (s b : string) :
  all_chars p b = true ->
  drop_while_end p (s ++ b) = drop_while_end p s.
Proof.
  intros Hb. induction s as [|c s IH]; simpl.
  - apply drop_while_end_all. exact Hb.
  - rewrite IH. reflexivity.
Qed.

Lemma drop_while_keeps (p : ascii -> bool) (s : string) :
  all_chars (fun c => negb (p c)) s = true -> drop_while p s = s.
Proof.
  destruct s as [|c s]; simpl; [reflexivity|].
  intros Hall. apply andb_prop in Hall. destruct Hall as [Hc _].
  apply negb_true_iff in Hc. rewrite Hc. reflexivity.
Qed.

(** Blanks around a text without blanks are what [strip] removes. *)
Lemma strip_padded (a core b : string) :
  all_chars is_space a = true -> all_chars is_space b = true ->
  all_chars (fun c => negb (is_space c)) core = true ->
  strip (a ++ core ++ b) = core.
Proof.
  intros Ha Hb Hcore. unfold strip.
  rewrite (drop_while_all is_space a _ Ha).
  destruct core as [|c core].
  - simpl. rewrite (drop_while_end_all is_space (drop_while is_space b)).
    + reflexivity.
    + clear Ha. induction b as [|d b IH]; simpl in *; [reflexivity|].
      apply andb_prop in Hb. destruct Hb as [Hd Hb]. rewrite Hd.
      exact (IH Hb).
  - pose proof Hcore as Hall. simpl in Hcore.
    apply andb_prop in Hcore. destruct Hcore as [Hc _].
    apply negb_true_iff in Hc.
    change ((String c core ++ b)) with (String c (core ++ b)).
    cbn [drop_while]. rewrite Hc.
    change (String c (core ++ b)) with (String c core ++ b).
    rewrite (drop_while_end_app is_space _ b Hb).
    apply drop_while_end_keeps. exact Hall.
Qed.

Lemma grouped_no_space (v : string) :
  grouped v = true -> all_chars (fun c => negb (is_space c)) v = true.
Proof.
  apply all_chars_impl. intros c Hc. apply orb_prop in Hc.
  destruct Hc as [Hd|Hcomma].
  - rewrite (digit_not_space c Hd). reflexivity.
  - apply Ascii.eqb_eq in Hcomma. subst c. reflexivity.
Qed.

Lemma grouped_digits (v : string) :
  grouped v = true -> all_chars is_digit (remove_char "," v) = true.
Proof.
  unfold grouped. induction v as [|c v IH]; [reflexivity|].
  cbn [all_chars remove_char].
  intros Hall. apply andb_prop in Hall. destruct Hall as [Hc Hv].
  destruct (Ascii.eqb "," c) eqn:Hcomma; [exact (IH Hv)|].
  cbn [all_chars]. rewrite (IH Hv), andb_true_r.
  apply orb_prop in Hc. destruct Hc as [Hd|Heq]; [exact Hd|].
  rewrite Ascii.eqb_sym in Heq. congruence.
Qed.

Lemma digits_value (s : string) :
  all_chars is_digit s = true ->
  forall prev acc n,
    s <> EmptyString \/ prev = true ->
    PyInt.digits prev acc n s
    = Some (decimal_value acc s, (n + String.length s)%nat).
Proof.
  induction s as [|c s IH]; intros Hall prev acc n Hne;
    cbn [PyInt.digits all_chars String.length decimal_value] in *.
  - destruct Hne as [Hne | ->]; [contradiction|].
    rewrite Nat.add_0_r. reflexivity.
  - apply andb_prop in Hall. destruct Hall as [Hc Hs].
    rewrite Hc, (IH Hs true _ (S n) (or_intror eq_refl)).
    f_equal. f_equal. lia.
Qed.

Lemma unsigned_value (s : string) :
  all_chars is_digit s = true ->
  (1 <= String.length s <= PyInt.int_max_str_digits)%nat ->
  PyInt.unsigned s = Some (decimal_value 0 s).
Proof.
  intros Hall [Hlo Hhi]. unfold PyInt.unsigned.
  rewrite (digits_value s Hall false 0 0%nat)
    by (left; destruct s; [simpl in Hlo; lia | discriminate]).
  cbn [Nat.add].
  destruct (Nat.leb_spec (String.length s) PyInt.int_max_str_digits)
    as [Hle|Hgt]; [reflexivity|].
  exfalso. apply (Nat.lt_irrefl (String.length s)).
  eapply Nat.le_lt_trans; eassumption.
Qed.

Lemma digits_no_int_space (s : string) :
  all_chars is_digit s = true ->
  all_chars (fun c => negb (is_int_space c)) s = true.
Proof.
  apply all_chars_impl. intros c Hc.
  rewrite (digit_not_int_space c Hc). reflexivity.
Qed.

Lemma int_value (s : string) :
  all_chars is_digit s = true ->
  (1 <= String.length s <= PyInt.int_max_str_digits)%nat ->
  PyInt.int s = Some (decimal_value 0 s) /\
  PyInt.int ("-" ++ s) = Some (- decimal_value 0 s).
Proof.
  intros Hall Hlen. pose proof (digits_no_int_space s Hall) as Hns.
  split.
  - unfold PyInt.int.
    rewrite (drop_while_keeps _ s Hns), (drop_while_end_keeps _ s Hns).
    destruct s as [|c s]; [simpl in Hlen; lia|].
    assert (Hc : is_digit c = true)
      by (simpl in Hall; apply andb_prop in Hall; tauto).
    rewrite <- (unsigned_value (String c s) Hall Hlen).
    destruct c as [[] [] [] [] [] [] [] []]; try discriminate Hc;
      reflexivity.
  - unfold PyInt.int. change ("-" ++ s) with (String "-" s).
    cbn [drop_while]. change (is_int_space "-") with false. cbv iota.
    rewrite (drop_while_end_keeps is_int_space (String "-" s))
      by (simpl; exact Hns).
    rewrite (unsigned_value s Hall Hlen). reflexivity.
Qed.

Lemma decimal_value_nonneg (s : string) :
  all_chars is_digit s = true ->
  forall acc, 0 <= acc -> 0 <= decimal_value acc s.
Proof.
  induction s as [|c s IH]; cbn [decimal_value all_chars];
    intros Hall acc Hacc; [exact Hacc|].
  apply andb_prop in Hall. destruct Hall as [Hc Hs].
  apply (IH Hs).
  assert (0 <= digit_val c)
    by (destruct c as [[] [] [] [] [] [] [] []]; try discriminate Hc;
        vm_compute; discriminate).
  lia.
Qed.

(** A share count written with digits and thousands separators, with or
    without a minus sign and blanks around it, is read as the number its
    digits denote, as long as there is a digit and no more than the
    interpreter's limit of them. *)
Theorem shares_of_grouped_digits (a v b : string) :
  all_chars is_space a = true -> all_chars is_space b = true ->
  grouped v = true ->
  (1 <= String.length (remove_char "," v) <= PyInt.int_max_str_digits)%nat ->
  parse_shares (a ++ v ++ b) = decimal_value 0 (remove_char "," v) /\
  parse_shares (a ++ ("-" ++ v) ++ b) = - decimal_value 0 (remove_char "," v) /\
  0 <= decimal_value 0 (remove_char "," v).
Proof.
  intros Ha Hb Hv Hlen.
  pose proof (grouped_digits v Hv) as Hds.
  destruct (int_value _ Hds Hlen) as [Hpos Hneg].
  split; [|split].
  - unfold parse_shares.
    rewrite (strip_padded a v b Ha Hb (grouped_no_space v Hv)).
    rewrite Hpos. reflexivity.
  - unfold parse_shares.
    rewrite (strip_padded a ("-" ++ v) b Ha Hb)
      by (simpl; exact (grouped_no_space v Hv)).
    change (remove_char "," ("-" ++ v)) with ("-" ++ remove_char "," v).
    rewrite Hneg. reflexivity.
  - apply (decimal_value_nonneg _ Hds). lia.
Qed.

Lemma shares_of_grouped_digits_witness :
  parse_shares (" " ++ "1,234,567" ++ " ") = 1234567 /\
  parse_shares (" " ++ ("-" ++ "1,234,567") ++ " ") = -1234567.
Proof.
  assert (Hlen : (1 <= String.length (remove_char "," "1,234,567")
                  <= PyInt.int_max_str_digits)%nat).
  { split; [simpl; lia|].
    apply Nat.le_trans with 10%nat;
      [simpl; lia | apply ScanFacts.limit_at_least_ten]. }
  destruct (shares_of_grouped_digits " " "1,234,567" " "
              eq_refl eq_refl eq_refl Hlen) as (Hpos & Hneg & _).
  split; [exact Hpos | exact Hneg].
Defined.









End SharesFacts.

(* ================================================================== *)
(** ** From feed rows to table cells *)

Module TableFacts.
Import PyStr Extract Flow Reconcile Dashboard.
Import SortFacts DictFacts FlowFacts ReconcileFacts FlowMapFacts.

Section Cells.
Context {FT : PyFloatType}.




(** Each row of a table carries the highlight of its group: in the buying
    table the net cell is a buy highlight holding a positive, signed
    number; in the selling table it is a sell highlight holding a negative
    number or a neutral zero; in the table without flow data the three
    flow cells read N/A and the net cell has no highlight. *)
Theorem table_cells_match_group (stocks : list merged)
    (foreign_map : pydict flow_record) (x : classified) :
  let g := merge_and_classify stocks foreign_map in
  let cells := flow_cells_of x in
  (In x (buying g) ->
   exists n, net x = Some n /\ 0 < n /\
     net_cls cells = "buy-highlight" /\
     net_display cells = span "pos" ("+" ++ format_comma n)) /\
  (In x (selling g) ->
   exists n, net x = Some n /\ n <= 0 /\
     net_cls cells = "sell-highlight" /\
     net_display cells
     = span (if n <? 0 then "neg" else EmptyString) (format_comma n)) /\
  (In x (no_flow_data g) ->
   net_cls cells = EmptyString /\ net_display cells = na_span /\
   buy_display cells = na_span /\ sell_display cells = na_span).
Proof.
  intros g cells. split; [|split].
  - unfold g. rewrite in_buying. unfold is_buy. intros [_ Hn].
    destruct (net x) as [n|] eqn:Hnet; [|discriminate].
    exists n. apply Z.ltb_lt in Hn. split; [reflexivity|].
    split; [exact Hn|].
    unfold cells, flow_cells_of. cbn [net_cls net_display].
    rewrite Hnet. unfold fmt_num.
    apply Z.ltb_lt in Hn. rewrite Hn. split; reflexivity.
  - unfold g. rewrite in_selling. unfold is_sell. intros [_ Hn].
    destruct (net x) as [n|] eqn:Hnet; [|discriminate].
    exists n. apply negb_true_iff in Hn.
    split; [reflexivity|].
    split; [apply Z.ltb_ge; exact Hn|].
    unfold cells, flow_cells_of. cbn [net_cls net_display].
    rewrite Hnet. unfold fmt_num. rewrite Hn.
    split; [reflexivity|]. destruct (n <? 0); reflexivity.
  - unfold g. rewrite in_no_flow_data. unfold has_no_flow, all_merged.
    intros [Hin Hn]. apply in_map_iff in Hin. destruct Hin as (s & <- & _).
    unfold merged_of in *.
    destruct (dict_get foreign_map (m_code s)); [discriminate Hn|].
    unfold cells. repeat split; reflexivity.
Qed.

Lemma classify_no_flow (stocks : list merged) :
  forall b s n,
    classify stocks [] b s n = (b, s, (n ++ map without_flow stocks)%list).
Proof.
  induction stocks as [|x stocks IH]; intros b s n; cbn [classify map].
  - rewrite app_nil_r. reflexivity.
  - cbn [dict_get]. rewrite IH, <- app_assoc. reflexivity.
Qed.

Lemma no_flow_at_all (stocks : list merged) :
  merge_and_classify stocks [] = ([], [], map without_flow stocks).
Proof.
  unfold merge_and_classify. rewrite classify_no_flow. reflexivity.
Qed.

End Cells.


Lemma table_cells_match_group_witness :
  let g := merge_and_classify ReconcileSamples.merged_2330_4444
             ReconcileSamples.flow_2330 in
  let x := merged_of ReconcileSamples.flow_2330
             ReconcileSamples.merged_2330 in
  In x (buying g) /\
  net_cls (flow_cells_of x) = "buy-highlight" /\
  net_display (flow_cells_of x) = span "pos" "+120".
Proof.
  intros g x.
  assert (Hin : In x (buying g)) by (left; reflexivity).
  destruct (proj1 (table_cells_match_group
                     ReconcileSamples.merged_2330_4444
                     ReconcileSamples.flow_2330 x) Hin)
    as (n & Hn & _ & Hcls & Hdisp).
  split; [exact Hin|]. split; [exact Hcls|].
  rewrite Hdisp. injection Hn as <-. reflexivity.
Defined.

End TableFacts.

(* ================================================================== *)
(** ** The run as a whole *)

Module MainFacts.
Import PyStr Extract Flow Reconcile Dashboard.
Import StrFacts DictFacts FlowFacts ReconcileFacts ScanFacts TableFacts.

Lemma length_substring (s : string) :
  forall n m,
    (n + m <= String.length s)%nat -> String.length (substring n m s) = m.
Proof.
  induction s as [|c s IH]; intros n m Hlen; cbn [String.length] in Hlen.
  - assert (n = 0%nat) as -> by lia. assert (m = 0%nat) as -> by lia.
    reflexivity.
  - destruct n as [|n]; destruct m as [|m]; cbn [substring String.length].
    + reflexivity.
    + rewrite IH by lia. reflexivity.
    + apply IH. lia.
    + apply IH. lia.
Qed.

Lemma display_length (d : string) :
  String.length d = 8%nat -> String.length (display d) = 5%nat.
Proof.
  intros Hd. unfold display, slice.
  rewrite !length_append, !length_substring by (rewrite Hd; simpl; lia).
  reflexivity.
Qed.

Lemma warning_not_empty : date_warning_div <> EmptyString.
Proof.
  intros Heq. apply (f_equal String.length) in Heq.
  vm_compute in Heq. discriminate Heq.
Qed.

(** The warning of the data-source strip is left out exactly when the
    5-day page's date and the flow date are the same string, both empty
    included; the 10-day page's date plays no part.  The flow date of an
    eight-character day has five characters, so a page date written with
    a one-digit month or day always brings the warning. *)
Theorem date_warning_iff (date_5d date_foreign : string) :
  (date_warning date_5d date_foreign = EmptyString
   <-> date_5d = date_foreign) /\
  (date_warning date_5d date_foreign = date_warning_div
   <-> date_5d <> date_foreign) /\
  (forall d,
     date_foreign = display d -> String.length d = 8%nat ->
     String.length date_5d <> 5%nat ->
     date_warning date_5d date_foreign = date_warning_div).
Proof.
  assert (Hcases :
            (date_5d = date_foreign /\
             date_warning date_5d date_foreign = EmptyString) \/
            (date_5d <> date_foreign /\
             date_warning date_5d date_foreign = date_warning_div)).
  { unfold date_warning, truthy.
    destruct (String.eqb_spec date_5d date_foreign) as [<-|Hne].
    - left. split; [reflexivity|].
      destruct date_5d; reflexivity.
    - right. split; [exact Hne|].
      destruct date_5d, date_foreign; try reflexivity.
      contradiction Hne. reflexivity. }
  pose proof warning_not_empty as Hdiv.
  split; [|split].
  - destruct Hcases as [[Heq Hw]|[Hne Hw]]; rewrite Hw; split; intros;
      congruence.
  - destruct Hcases as [[Heq Hw]|[Hne Hw]]; rewrite Hw; split; intros;
      congruence.
  - intros d -> Hd Hlen.
    destruct Hcases as [[Heq Hw]|[Hne Hw]]; [|exact Hw].
    contradiction Hlen. rewrite Heq. apply display_length. exact Hd.
Qed.

Lemma date_warning_iff_witness :
  date_warning "02/05" "02/05" = EmptyString /\
  date_warning "2/5" (display "20240205") = date_warning_div.
Proof.
  split.
  - apply (proj1 (date_warning_iff "02/05" "02/05")). reflexivity.
  - destruct (date_warning_iff "2/5" (display "20240205")) as (_ & _ & Hw).
    apply (Hw "20240205"); [reflexivity | reflexivity | discriminate].
Defined.

Section Run.
Context {FT : PyFloatType} {HF : PyFloat} `{PyDatetime}.





Variables page_5d page_10d : page.
Variable fetch : feed.
Variable today : string.



(** With a feed that has nothing for today nor for the seven days before,
    the dashboard is rendered all the same: every merged record is in the
    list without flow data, in merged order, the flow date is empty, and
    the date warning shows unless the 5-day page has no labelled date
    either. *)
Theorem silent_feed_dashboard (stocks_5d stocks_10d : list stock)
    (d5 d10 : string) (dt : datetime) :
  fetch_fubon_ranking (page_text page_5d) (page_cells page_5d)
  = Ok (stocks_5d, d5) ->
  stocks_5d <> [] ->
  fetch_fubon_ranking (page_text page_10d) (page_cells page_10d)
  = Ok (stocks_10d, d10) ->
  usable (fetch today) = false ->
  strptime_ymd today = Ok dt ->
  (forall i, (1 <= i <= 7)%nat ->
             is_ok (minus_days dt i) = true /\
             usable (fetch (day_back dt i)) = false) ->
  main page_5d page_10d fetch today
  = (Ranking5 :: Ranking10 :: FlowDay today
       :: map FlowDay (map (day_back dt) (seq 1 7)),
     Ok (Some {| a_groups :=
                   ([], [],
                    map without_flow (merge_horizons stocks_5d stocks_10d));
                 a_date_5d := d5;
                 a_date_10d := d10;
                 a_date_foreign := EmptyString |})) /\
  (date_warning d5 EmptyString = EmptyString <-> d5 = EmptyString).
Proof.
  intros H5 Hne H10 Hu Hdt Hdays.
  split.
  - unfold main. rewrite H5.
    destruct stocks_5d as [|s rest]; [contradiction Hne; reflexivity|].
    rewrite H10. unfold fetch_twse_foreign_data. rewrite Hu, Hdt.
    rewrite (walk_exhausted fetch dt range_1_8).
    + cbn [bind map]. rewrite no_flow_at_all. reflexivity.
    + intros i Hi. apply in_seq in Hi. apply Hdays. lia.
    + intros i Hi. apply in_seq in Hi. apply Hdays. lia.
  - unfold date_warning, truthy. destruct d5; cbn.
    + split; reflexivity.
    + split; [intros Hw; contradiction (warning_not_empty Hw)|discriminate].
Qed.

End Run.

Definition sample_page : page :=
  {| page_text := ExtractSamples.page_text;
     page_cells := ExtractSamples.page_cells |}.







Lemma silent_days (i : nat) :
  (1 <= i <= 7)%nat ->
  is_ok (minus_days (PyDatetime := Calendar.gregorian)
           FlowSamples.march_3 i) = true /\
  usable (FlowSamples.silent_feed
            (day_back (H := Calendar.gregorian) FlowSamples.march_3 i))
  = false.
Proof.
  intros Hi. split; [apply march_3_steps_back; exact Hi | reflexivity].
Qed.

Lemma silent_feed_dashboard_witness :
  fst (main (HF := Decimal.decimal_float) (H := Calendar.gregorian)
         sample_page sample_page FlowSamples.silent_feed "20240303")
  = [Ranking5; Ranking10; FlowDay "20240303"; FlowDay "20240302";
     FlowDay "20240301"; FlowDay "20240229"; FlowDay "20240228";
     FlowDay "20240227"; FlowDay "20240226"; FlowDay "20240225"] /\
  date_warning "02/05" EmptyString <> EmptyString.
Proof.
  assert (Hne : [ExtractSamples.tsmc_stock; ExtractSamples.tsmc_again_stock]
                <> []) by discriminate.
  destruct (silent_feed_dashboard (HF := Decimal.decimal_float)
              (H := Calendar.gregorian) sample_page sample_page
              FlowSamples.silent_feed "20240303" _ _ _ _ FlowSamples.march_3
              sample_page_extracted Hne sample_page_extracted
              eq_refl eq_refl silent_days) as [Hrun Hwarn].
  split.
  - rewrite Hrun. reflexivity.
  - intros Hw. apply Hwarn in Hw. discriminate Hw.
Defined.


End MainFacts.
